(** * koog-sample / langchain: the recipe-extraction workflow

    A shallow embedding of [src/langchain/main.py] (class [PdfRagApp]),
    [cooking_tools.py] and [recipe_types.py].

    Modelling conventions.
    - A Python call that may raise is a value of [result]: [Ok v] or
      [Raise e].  [try: ... except Exception as e: ...] is [try_except].
    - Everything behind the network (HTTP fetch, PDF parsing, the chat
      model, the embedding model, the Chroma vector store, the agent
      executor) is an oracle gathered in the record [World]; theorems
      quantify over every [World].
    - Python [float] minute values are exact rationals ([Q]); rounding of
      IEEE arithmetic is outside the model.
    - A node returns [{**state, "key": value}]; the overriding entry is an
      [Assignment] and [spread] builds the resulting dictionary. *)

From Stdlib Require Import List Ascii String Bool ZArith QArith Lia.
From Stdlib Require Import DecimalString Lqa.
Import ListNotations.
Open Scope string_scope.

(** ** Exceptions and fallible calls *)

(** The two classes of exception the code distinguishes:
    [langchain_core.exceptions.OutputParserException] (schema validation of
    the model output failed) and every other [Exception].  The payload is
    [str(e)]. *)
Inductive exn : Type :=
| OutputParserException (msg : string)
| OtherException (msg : string).

Definition str (e : exn) : string :=
  match e with
  | OutputParserException msg => msg
  | OtherException msg => msg
  end.

Inductive result (A : Type) : Type :=
| Ok (a : A)
| Raise (e : exn).

Arguments Ok {A} a.
Arguments Raise {A} e.

Definition bind {A B : Type} (r : result A) (k : A -> result B) : result B :=
  match r with
  | Ok a => k a
  | Raise e => Raise e
  end.

Notation "x <- r ;; k" := (bind r (fun x => k))
  (at level 61, r at next level, right associativity).

(** [try: body  except Exception as e: handler(e)] *)
Definition try_except {A : Type} (body : result A) (handler : exn -> A) : A :=
  match body with
  | Ok a => a
  | Raise e => handler e
  end.

(** Python attribute access on an [Optional] value: [None.attr] raises
    [AttributeError], which is an ordinary [Exception]. *)
Definition attr_of {A : Type} (o : option A) (what : string) : result A :=
  match o with
  | Some a => Ok a
  | None => Raise (OtherException ("'NoneType' object has no attribute '" ++ what ++ "'"))
  end.

(** ** recipe_types.py *)

Record Document : Type := mkDocument { page_content : string }.

Module Ingredient.
Record t : Type := mk { name : string; unit : string; quantity : Q }.
End Ingredient.

Module RecipeEntity.
Record t : Type := mk { name : string; ingredients : list Ingredient.t }.
End RecipeEntity.

Record PdfValidationResult : Type :=
  mkPdfValidationResult { is_recipe : bool; reason : string }.

Record PdfContent : Type :=
  mkPdfContent { pdf_bytes : string; extracted_text : string }.

Module DocumentChunks.
Record t : Type := mk { original_text : string; text_segments : list Document }.
End DocumentChunks.

Record ChunkEmbedding : Type :=
  mkChunkEmbedding { chunk_text : string; vector_embedding : list Q }.

Definition from_embedding (text : string) (embedding : list Q) : ChunkEmbedding :=
  mkChunkEmbedding text embedding.

Module EmbeddedChunks.
Record t : Type :=
  mk { text_segments : list Document; chunk_embeddings : list ChunkEmbedding }.
End EmbeddedChunks.

Module RecipeExtractionResult.
Record t : Type :=
  mk { extracted_recipe : option RecipeEntity.t;
       total_cooking_minutes : option Q }.
End RecipeExtractionResult.

(** ** cooking_tools.py *)

(** Python's built-in [sum]: a left fold starting from [0]. *)
Definition py_sum (l : list Q) : Q := fold_left Qplus l 0%Q.

Definition sum_minutes (minutes_list : list Q) : Q :=
  match minutes_list with
  | [] => 0%Q
  | _ => py_sum minutes_list
  end.


(** ** The agent trace inspected by the time-extraction step

    [AgentExecutor.invoke] with [return_intermediate_steps=True] returns a
    dictionary with the model's prose answer under ["output"] and, under
    ["intermediate_steps"], a list of [(action, observation)] pairs.  The
    code probes the action with [hasattr]; an attribute that may be missing
    is an [option]. *)

Module ToolCall.
(** [args] is the [minutes_list] entry of the tool call's argument
    dictionary, typed by the tool's schema ([List[float]]). *)
Record t : Type := mk { name : string; args : list Q }.
End ToolCall.

Record AIMessage : Type :=
  mkAIMessage { content : string; tool_calls : option (list ToolCall.t) }.

Record AgentAction : Type :=
  mkAgentAction { tool : option string; message_log : option (list AIMessage) }.

Definition Step : Type := (AgentAction * string)%type.

Record AgentResult : Type :=
  mkAgentResult { output : string; intermediate_steps : option (list Step) }.

(** [result.get("intermediate_steps", [])] *)
Definition steps_of (r : AgentResult) : list Step :=
  match intermediate_steps r with
  | Some steps => steps
  | None => []
  end.

(** ** External collaborators *)

Record OpenAIEmbeddings : Type :=
  mkOpenAIEmbeddings { embed_query : string -> result (list Q) }.

Record Chroma : Type :=
  mkChroma { similarity_search : string -> Z -> result (list Document);
             delete_collection : result unit }.

(** The chat model, seen through the three chains the code builds on it.
    [recipe_chain] takes the number of the attempt (from 1), since the
    model may answer differently each time it is asked. *)
Record ChatOpenAI : Type :=
  mkChatOpenAI {
    validation_chain : string -> string -> result PdfValidationResult;
    recipe_chain : nat -> string -> result RecipeEntity.t;
    agent_executor : string -> result AgentResult }.

Record World : Type :=
  mkWorld {
    download_pdf_sync : string -> result string;
    parse_document : string -> result Document;
    split_document : Document -> result (list Document);
    b64encode : string -> string;
    create_chat_model : result ChatOpenAI;
    create_embedding_model : result OpenAIEmbeddings;
    Chroma_from_documents : list Document -> OpenAIEmbeddings -> result Chroma }.

(** ** WorkflowState *)

Record WorkflowState : Type :=
  mkWorkflowState {
    pdf_url : string;
    validation_result : option PdfValidationResult;
    pdf_content : option PdfContent;
    document_chunks : option DocumentChunks.t;
    embedded_chunks : option EmbeddedChunks.t;
    recipe_relevant_segments : option (list Document);
    extracted_recipe : option RecipeEntity.t;
    total_cooking_minutes : option Q;
    final_result : option RecipeExtractionResult.t;
    error : option string }.

(** The entry ["key": value] that a node puts after [**state]. *)
Inductive Assignment : Type :=
| set_validation_result (v : PdfValidationResult)
| set_pdf_content (v : PdfContent)
| set_document_chunks (v : DocumentChunks.t)
| set_embedded_chunks (v : EmbeddedChunks.t)
| set_recipe_relevant_segments (v : list Document)
| set_extracted_recipe (v : option RecipeEntity.t)
| set_total_cooking_minutes (v : option Q)
| set_final_result (v : RecipeExtractionResult.t)
| set_error (v : string).

(** [{**state, "key": value}] *)
Definition spread (state : WorkflowState) (a : Assignment) : WorkflowState :=
  match a with
  | set_validation_result v =>
      mkWorkflowState (pdf_url state) (Some v) (pdf_content state) (document_chunks state)
         (embedded_chunks state) (recipe_relevant_segments state)
         (extracted_recipe state) (total_cooking_minutes state)
         (final_result state) (error state)
  | set_pdf_content v =>
      mkWorkflowState (pdf_url state) (validation_result state) (Some v)
         (document_chunks state) (embedded_chunks state)
         (recipe_relevant_segments state) (extracted_recipe state)
         (total_cooking_minutes state) (final_result state) (error state)
  | set_document_chunks v =>
      mkWorkflowState (pdf_url state) (validation_result state) (pdf_content state) (Some v)
         (embedded_chunks state) (recipe_relevant_segments state)
         (extracted_recipe state) (total_cooking_minutes state)
         (final_result state) (error state)
  | set_embedded_chunks v =>
      mkWorkflowState (pdf_url state) (validation_result state) (pdf_content state)
         (document_chunks state) (Some v) (recipe_relevant_segments state)
         (extracted_recipe state) (total_cooking_minutes state)
         (final_result state) (error state)
  | set_recipe_relevant_segments v =>
      mkWorkflowState (pdf_url state) (validation_result state) (pdf_content state)
         (document_chunks state) (embedded_chunks state) (Some v)
         (extracted_recipe state) (total_cooking_minutes state)
         (final_result state) (error state)
  | set_extracted_recipe v =>
      mkWorkflowState (pdf_url state) (validation_result state) (pdf_content state)
         (document_chunks state) (embedded_chunks state)
         (recipe_relevant_segments state) v (total_cooking_minutes state)
         (final_result state) (error state)
  | set_total_cooking_minutes v =>
      mkWorkflowState (pdf_url state) (validation_result state) (pdf_content state)
         (document_chunks state) (embedded_chunks state)
         (recipe_relevant_segments state) (extracted_recipe state) v
         (final_result state) (error state)
  | set_final_result v =>
      mkWorkflowState (pdf_url state) (validation_result state) (pdf_content state)
         (document_chunks state) (embedded_chunks state)
         (recipe_relevant_segments state) (extracted_recipe state)
         (total_cooking_minutes state) (Some v) (error state)
  | set_error v =>
      mkWorkflowState (pdf_url state) (validation_result state) (pdf_content state)
         (document_chunks state) (embedded_chunks state)
         (recipe_relevant_segments state) (extracted_recipe state)
         (total_cooking_minutes state) (final_result state) (Some v)
  end.

(** [l[:k]] for a Python integer [k]. *)
Definition slice_to {A : Type} (l : list A) (k : Z) : list A :=
  if (0 <=? k)%Z then firstn (Z.to_nat k) l
  else firstn (List.length l - Z.to_nat (- k)) l.

(** ** Small pieces of Python *)

Definition nl : string := String (ascii_of_nat 10) EmptyString.

(** [sep.join(parts)] *)
Definition join (sep : string) (parts : list string) : string :=
  String.concat sep parts.

(** [s.split('/')[-1]]: the text after the last slash. *)
Fixpoint last_component (s : string) (current : string) : string :=
  match s with
  | EmptyString => current
  | String c rest =>
      if Ascii.eqb c "/"%char then last_component rest EmptyString
      else last_component rest (current ++ String c EmptyString)
  end.

(** [x or default] on strings: the empty string is falsy. *)
Definition or_else (x default : string) : string :=
  match x with
  | EmptyString => default
  | _ => x
  end.

Fixpoint lookup {A : Type} (key : string) (d : list (string * A)) : option A :=
  match d with
  | [] => None
  | (k, v) :: rest => if String.eqb key k then Some v else lookup key rest
  end.

(** ** Runnable.with_retry *)

Definition is_output_parser_exception (e : exn) : bool :=
  match e with
  | OutputParserException _ => true
  | OtherException _ => false
  end.

(** Modelled from the spec: [Runnable.with_retry] belongs to the LangChain
    library, not to this repository.  The spec describes it as a bounded
    retry: the call is attempted again only when it raised an exception of
    the listed type, and never more than [stop_after_attempt] times in
    total; the exception of the last attempt is raised again.  [attempt]
    runs the chain for the attempt with the given number (from 1).  The
    second component is the number of attempts that were made. *)
Fixpoint retry_loop {A : Type} (retry_if : exn -> bool)
    (attempt : nat -> result A) (remaining : nat) (attempt_number : nat)
  : result A * nat :=
  match attempt attempt_number with
  | Ok a => (Ok a, attempt_number)
  | Raise e =>
      match remaining with
      | S remaining' =>
          if retry_if e
          then retry_loop retry_if attempt remaining' (S attempt_number)
          else (Raise e, attempt_number)
      | O => (Raise e, attempt_number)
      end
  end.

Definition with_retry {A : Type} (retry_if_exception_type : exn -> bool)
    (stop_after_attempt : nat) (attempt : nat -> result A) : result A * nat :=
  retry_loop retry_if_exception_type attempt (stop_after_attempt - 1) 1.

(** ** PdfRagApp *)

Section PdfRagApp.

Variable w : World.

Fixpoint embed_chunks (embedding_model : OpenAIEmbeddings) (chunks : list string)
  : result (list ChunkEmbedding) :=
  match chunks with
  | [] => Ok []
  | chunk :: rest =>
      embedding <- embed_query embedding_model chunk ;;
      embeddings <- embed_chunks embedding_model rest ;;
      Ok (from_embedding chunk embedding :: embeddings)
  end.

Definition create_openai_embeddings (chunks : list string) : list ChunkEmbedding :=
  try_except
    (embedding_model <- create_embedding_model w ;;
     embed_chunks embedding_model chunks)
    (fun _ => []).

(** The loop [for tool_call in message.tool_calls]; it returns
    [float(sum_minutes.invoke(tool_args))] at the first call named
    [sum_minutes] ([float] is the identity on a number that is already one). *)
Fixpoint first_sum_minutes_call (calls : list ToolCall.t) : option Q :=
  match calls with
  | [] => None
  | tool_call :: rest =>
      if String.eqb (ToolCall.name tool_call) "sum_minutes"
      then Some (sum_minutes (ToolCall.args tool_call))
      else first_sum_minutes_call rest
  end.

(** The body of the [for step in intermediate_steps] loop: [Some total] when
    the step makes the function return, [None] when the loop goes on. *)
Definition inspect_step (step : Step) : option Q :=
  let '(action, observation) := step in
  match tool action with
  | Some name =>
      if String.eqb name "sum_minutes" then
        match message_log action with
        | Some (message :: _) =>
            match tool_calls message with
            | Some calls => first_sum_minutes_call calls
            | None => None
            end
        | _ => None
        end
      else None
  | None => None
  end.

Fixpoint inspect_steps (steps : list Step) : option Q :=
  match steps with
  | [] => None
  | step :: rest =>
      match inspect_step step with
      | Some total => Some total
      | None => inspect_steps rest
      end
  end.

Definition _extract_sum_minutes_from_agent_result (r : AgentResult) : option Q :=
  let intermediate_steps := steps_of r in
  inspect_steps intermediate_steps.

(** The [try] block of [perform_rag_search]. *)
Definition chroma_search (documents : list Document) (query : string)
    (max_results : Z) : result (list Document) :=
  embedding_model <- create_embedding_model w ;;
  vectorstore <- Chroma_from_documents w documents embedding_model ;;
  relevant_docs <- similarity_search vectorstore query max_results ;;
  _ <- delete_collection vectorstore ;;
  Ok relevant_docs.

Definition perform_rag_search (documents : list Document) (query : string)
    (max_results : Z) : list Document :=
  try_except
    (chroma_search documents query max_results)
    (fun _ => slice_to documents max_results).

Definition context_of (docs : list Document) : string :=
  join (nl ++ nl) (map (fun doc => "【文書内容】" ++ nl ++ page_content doc) docs).

(** The chain of [generate_answer_with_agent] with its retry policy,
    together with the number of times the chain was run. *)
Definition invoke_recipe_chain (relevant_chunks : list Document)
  : result RecipeEntity.t * nat :=
  let context := context_of relevant_chunks in
  match create_chat_model w with
  | Raise e => (Raise e, O)
  | Ok chat_model =>
      with_retry is_output_parser_exception 2
        (fun attempt_number => recipe_chain chat_model attempt_number context)
  end.

Definition generate_answer_with_agent (relevant_chunks : list Document)
  : option RecipeEntity.t :=
  try_except
    (recipe <- fst (invoke_recipe_chain relevant_chunks) ;; Ok (Some recipe))
    (fun _ => None).

Definition agent_input (context : string) : string :=
  "以下の文書から調理時間を抽出し、sumMinutesツールを使って合計時間を計算してください："
  ++ nl ++ nl ++ context ++ nl ++ nl
  ++ "必ずsumMinutesツールを呼び出して時間を合計してください。".

Definition extract_cooking_time_with_tools (time_related_segments : list Document)
  : option Q :=
  try_except
    (let context := context_of time_related_segments in
     chat_model <- create_chat_model w ;;
     r <- agent_executor chat_model (agent_input context) ;;
     match _extract_sum_minutes_from_agent_result r with
     | Some total_minutes => Ok (Some total_minutes)
     | None => Ok None
     end)
    (fun _ => None).

(** *** The nodes of the workflow *)

Definition fallback_validation_result : PdfValidationResult :=
  mkPdfValidationResult true "エラーが発生したため、処理を続行します".

Definition _validate_recipe_pdf_node (state : WorkflowState) : Assignment :=
  try_except
    (pdf_bytes <- download_pdf_sync w (pdf_url state) ;;
     let pdf_base64 := b64encode w pdf_bytes in
     let filename := or_else (last_component (pdf_url state) EmptyString) "recipe.pdf" in
     chat_model <- create_chat_model w ;;
     validation_result <- validation_chain chat_model filename pdf_base64 ;;
     Ok (set_validation_result validation_result))
    (fun _ => set_validation_result fallback_validation_result).

Definition _not_recipe_finish_node (state : WorkflowState) : Assignment :=
  let final_result := RecipeExtractionResult.mk None None in
  set_final_result final_result.

Definition _download_extract_pdf_node (state : WorkflowState) : Assignment :=
  try_except
    (pdf_bytes <- download_pdf_sync w (pdf_url state) ;;
     document <- parse_document w pdf_bytes ;;
     let pdf_content := mkPdfContent pdf_bytes (page_content document) in
     Ok (set_pdf_content pdf_content))
    (fun e => set_error (str e)).

Definition _split_chunks_node (state : WorkflowState) : Assignment :=
  try_except
    (content <- attr_of (pdf_content state) "pdf_bytes" ;;
     document <- parse_document w (pdf_bytes content) ;;
     text_segments <- split_document w document ;;
     let document_chunks :=
       DocumentChunks.mk (extracted_text content) text_segments in
     Ok (set_document_chunks document_chunks))
    (fun e => set_error (str e)).

Definition _create_embeddings_node (state : WorkflowState) : Assignment :=
  try_except
    (chunks <- attr_of (document_chunks state) "text_segments" ;;
     let text_segments := DocumentChunks.text_segments chunks in
     let chunk_texts := map page_content text_segments in
     let chunk_embeddings := create_openai_embeddings chunk_texts in
     let embedded_chunks := EmbeddedChunks.mk text_segments chunk_embeddings in
     Ok (set_embedded_chunks embedded_chunks))
    (fun e => set_error (str e)).

Definition recipe_query : string := "レシピ名 材料 分量".

Definition _find_relevant_chunks_node (state : WorkflowState) : Assignment :=
  try_except
    (embedded <- attr_of (embedded_chunks state) "text_segments" ;;
     let text_segments := EmbeddedChunks.text_segments embedded in
     let relevant_segments := perform_rag_search text_segments recipe_query 5 in
     Ok (set_recipe_relevant_segments relevant_segments))
    (fun e => set_error (str e)).

(** Nothing in the [try] block of this node can raise
    ([generate_answer_with_agent] catches everything itself), so its
    handler, which also sets [extracted_recipe] to [None], is never
    entered. *)
Definition _extract_recipe_entity_node (state : WorkflowState) : Assignment :=
  match recipe_relevant_segments state with
  | Some (segment :: segments) =>
      let extracted_recipe := generate_answer_with_agent (segment :: segments) in
      set_extracted_recipe extracted_recipe
  | _ => set_extracted_recipe None
  end.

Definition time_query : string := "時間 分 調理時間 作業時間 合計".

Definition _extract_cooking_time_node (state : WorkflowState) : Assignment :=
  try_except
    (embedded <- attr_of (embedded_chunks state) "text_segments" ;;
     let text_segments := EmbeddedChunks.text_segments embedded in
     let time_related_segments := perform_rag_search text_segments time_query 3 in
     match time_related_segments with
     | _ :: _ =>
         let total_cooking_minutes :=
           extract_cooking_time_with_tools time_related_segments in
         Ok (set_total_cooking_minutes total_cooking_minutes)
     | [] => Ok (set_total_cooking_minutes None)
     end)
    (fun _ => set_total_cooking_minutes None).

Definition _create_final_result_node (state : WorkflowState) : Assignment :=
  let final_result :=
    RecipeExtractionResult.mk (extracted_recipe state) (total_cooking_minutes state) in
  set_final_result final_result.

(** [if validation_result and validation_result.is_recipe]: an object of a
    pydantic model is truthy, [None] is falsy. *)
Definition _should_continue_processing (state : WorkflowState) : string :=
  match validation_result state with
  | Some validation_result =>
      if is_recipe validation_result then "continue" else "stop"
  | None => "stop"
  end.

End PdfRagApp.

(** ** The graph and the engine that runs it *)

Definition END : string := "__end__".

Record StateGraph : Type :=
  mkStateGraph {
    nodes : list (string * (WorkflowState -> Assignment));
    entry_point : string;
    conditional_edges :
      list (string * ((WorkflowState -> string) * list (string * string)));
    edges : list (string * string) }.

Definition create_langgraph_workflow (w : World) : StateGraph :=
  mkStateGraph
    [ ("validate_recipe_pdf", _validate_recipe_pdf_node w);
      ("not_recipe_finish", _not_recipe_finish_node);
      ("download_extract_pdf", _download_extract_pdf_node w);
      ("split_chunks", _split_chunks_node w);
      ("create_embeddings", _create_embeddings_node w);
      ("find_relevant_chunks", _find_relevant_chunks_node w);
      ("extract_recipe_entity", _extract_recipe_entity_node w);
      ("extract_cooking_time", _extract_cooking_time_node w);
      ("create_final_result", _create_final_result_node) ]
    "validate_recipe_pdf"
    [ ("validate_recipe_pdf",
       (_should_continue_processing,
        [ ("continue", "download_extract_pdf");
          ("stop", "not_recipe_finish") ])) ]
    [ ("download_extract_pdf", "split_chunks");
      ("split_chunks", "create_embeddings");
      ("create_embeddings", "find_relevant_chunks");
      ("find_relevant_chunks", "extract_recipe_entity");
      ("extract_recipe_entity", "extract_cooking_time");
      ("extract_cooking_time", "create_final_result");
      ("create_final_result", END);
      ("not_recipe_finish", END) ].

(** The node that runs after [node] has produced [state]: the label given
    by the classifier of a conditional edge is looked up in its map; a node
    without a conditional edge follows its plain edge. *)
Definition next_node (g : StateGraph) (node : string) (state : WorkflowState)
  : option string :=
  match lookup node (conditional_edges g) with
  | Some (path, path_map) => lookup (path state) path_map
  | None => lookup node (edges g)
  end.

(** One entry of the run's log: the node that ran and the entry it put
    after [**state]. *)
Definition Event : Type := (string * Assignment)%type.

(** Modelled from the spec: the engine behind [workflow.compile()] and
    [app.invoke] belongs to the LangGraph library, not to this repository.
    The spec describes it as strictly sequential: starting at the entry
    point, one node runs to completion on the current state, its result
    becomes the current state, and the edge leaving the node selects the
    next one, until [END].  [limit] is the engine's bound on the number of
    steps; a node that is not registered, a label without a target, or an
    exhausted bound is an error ([None]). *)
Fixpoint run_from (g : StateGraph) (limit : nat) (node : string)
    (state : WorkflowState) : option (WorkflowState * list Event) :=
  if String.eqb node END then Some (state, [])
  else
    match limit with
    | O => None
    | S limit' =>
        match lookup node (nodes g) with
        | None => None
        | Some action =>
            let a := action state in
            let state' := spread state a in
            match next_node g node state' with
            | None => None
            | Some next =>
                match run_from g limit' next state' with
                | Some (final_state, log) => Some (final_state, (node, a) :: log)
                | None => None
                end
            end
        end
    end.

Definition recursion_limit : nat := 25.

Definition invoke (g : StateGraph) (initial_state : WorkflowState)
  : option (WorkflowState * list Event) :=
  run_from g recursion_limit (entry_point g) initial_state.

Definition initial_state (pdf_url : string) : WorkflowState :=
  mkWorkflowState pdf_url None None None None None None None None None.

Definition execute_langgraph_workflow (w : World) (pdf_url : string)
  : option RecipeExtractionResult.t :=
  match invoke (create_langgraph_workflow w) (initial_state pdf_url) with
  | Some (final_state, _) => final_result final_state
  | None => Some (RecipeExtractionResult.mk None None)
  end.

(** The log of the extraction path, from the download node on. *)
Definition extraction_log (w : World) (state : WorkflowState)
  : WorkflowState * list Event :=
  let a1 := _download_extract_pdf_node w state in
  let s1 := spread state a1 in
  let a2 := _split_chunks_node w s1 in
  let s2 := spread s1 a2 in
  let a3 := _create_embeddings_node w s2 in
  let s3 := spread s2 a3 in
  let a4 := _find_relevant_chunks_node w s3 in
  let s4 := spread s3 a4 in
  let a5 := _extract_recipe_entity_node w s4 in
  let s5 := spread s4 a5 in
  let a6 := _extract_cooking_time_node w s5 in
  let s6 := spread s5 a6 in
  let a7 := _create_final_result_node s6 in
  (spread s6 a7,
   [ ("download_extract_pdf", a1); ("split_chunks", a2);
     ("create_embeddings", a3); ("find_relevant_chunks", a4);
     ("extract_recipe_entity", a5); ("extract_cooking_time", a6);
     ("create_final_result", a7) ]).

(** Log predicates used to state what a run did. *)
Definition is_terminal (node : string) : bool :=
  String.eqb node "create_final_result" || String.eqb node "not_recipe_finish".

Definition writes_final_result (a : Assignment) : bool :=
  match a with
  | set_final_result _ => true
  | _ => false
  end.

Definition terminal_runs (log : list Event) : nat :=
  List.length (filter (fun ev => is_terminal (fst ev)) log).

Definition final_result_writes (log : list Event) : nat :=
  List.length (filter (fun ev => writes_final_result (snd ev)) log).

(** The trace records a call of the aggregation tool: some step is an
    action of the tool [sum_minutes] whose first logged message lists a tool
    call named [sum_minutes]. *)
Definition records_sum_minutes_call (steps : list Step) (call : ToolCall.t) : Prop :=
  exists action observation message rest calls,
    In (action, observation) steps /\
    tool action = Some "sum_minutes" /\
    message_log action = Some (message :: rest) /\
    tool_calls message = Some calls /\
    In call calls /\
    ToolCall.name call = "sum_minutes".

(** What the spec says of the embed node, to be compared with
    [create_openai_embeddings]: every segment is embedded on its own, and a
    segment whose embedding fails is the only one to lose its pair. *)
Fixpoint spec_independent_embeddings (embedding_model : OpenAIEmbeddings)
    (chunks : list string) : list ChunkEmbedding :=
  match chunks with
  | [] => []
  | chunk :: rest =>
      match embed_query embedding_model chunk with
      | Ok embedding =>
          from_embedding chunk embedding
          :: spec_independent_embeddings embedding_model rest
      | Raise _ => spec_independent_embeddings embedding_model rest
      end
  end.

(** The dictionary key of the entry a node puts after [**state]. *)
Definition key_of (a : Assignment) : string :=
  match a with
  | set_validation_result _ => "validation_result"
  | set_pdf_content _ => "pdf_content"
  | set_document_chunks _ => "document_chunks"
  | set_embedded_chunks _ => "embedded_chunks"
  | set_recipe_relevant_segments _ => "recipe_relevant_segments"
  | set_extracted_recipe _ => "extracted_recipe"
  | set_total_cooking_minutes _ => "total_cooking_minutes"
  | set_final_result _ => "final_result"
  | set_error _ => "error"
  end.

(** The two sequences of nodes that lead from the entry point to [END]. *)
Definition rejection_path : list string :=
  [ "validate_recipe_pdf"; "not_recipe_finish" ].

Definition extraction_path : list string :=
  [ "validate_recipe_pdf"; "download_extract_pdf"; "split_chunks";
    "create_embeddings"; "find_relevant_chunks"; "extract_recipe_entity";
    "extract_cooking_time"; "create_final_result" ].

(** ** result_displayer.py *)

(** The value handed to [json.dumps]: a dictionary keeps the order in which
    its keys were written. *)
#[local] Set Warnings "-register-all".
Inductive json : Type :=
| JNull
| JNumber (q : Q)
| JString (s : string)
| JArray (items : list json)
| JObject (members : list (string * json)).

Definition ingredient_json (ing : Ingredient.t) : json :=
  JObject [ ("name", JString (Ingredient.name ing));
            ("quantity", JNumber (Ingredient.quantity ing));
            ("unit", JString (Ingredient.unit ing)) ].

Definition json_result (result : RecipeExtractionResult.t) : json :=
  JObject
    [ ("recipe",
       JObject
         [ ("name",
            match RecipeExtractionResult.extracted_recipe result with
            | Some recipe => JString (RecipeEntity.name recipe)
            | None => JNull
            end);
           ("ingredients",
            match RecipeExtractionResult.extracted_recipe result with
            | Some recipe =>
                JArray (map ingredient_json (RecipeEntity.ingredients recipe))
            | None => JArray []
            end) ]);
      ("total_cooking_minutes",
       match RecipeExtractionResult.total_cooking_minutes result with
       | Some minutes => JNumber minutes
       | None => JNull
       end) ].

(** [s * n] *)
Fixpoint times (s : string) (n : nat) : string :=
  match n with
  | O => EmptyString
  | S n' => s ++ times s n'
  end.

(** [str(n)] for a natural number, and the format [{n:2d}]: right-aligned
    in a field of at least two characters. *)
Definition str_of_nat (n : nat) : string := NilZero.string_of_uint (Nat.to_uint n).

Definition format_2d (n : nat) : string :=
  let digits := str_of_nat n in
  if (String.length digits <? 2)%nat then " " ++ digits else digits.

(** Truthiness of an optional number: [None] and zero are falsy. *)
Definition truthy_number (o : option Q) : bool :=
  match o with
  | Some q => negb (Qeq_bool q 0)
  | None => false
  end.

Section ResultDisplayer.

(** [str] of a float, as an f-string renders it, and [json.dumps] with
    [ensure_ascii=False, indent=2]. *)
Variable str_of_float : Q -> string.
Variable dumps : json -> string.

(** The loop [for i, ingredient in enumerate(recipe.ingredients, i)]. *)
Fixpoint ingredient_lines (i : nat) (ingredients : list Ingredient.t)
  : list string :=
  match ingredients with
  | [] => []
  | ingredient :: rest =>
      ("  " ++ format_2d i ++ ". " ++ Ingredient.name ingredient ++ " - "
       ++ str_of_float (Ingredient.quantity ingredient)
       ++ Ingredient.unit ingredient)
      :: ingredient_lines (S i) rest
  end.

Definition recipe_lines (o : option RecipeEntity.t) : list string :=
  match o with
  | Some recipe =>
      List.app
        [ nl ++ "🍽️ レシピ名: " ++ RecipeEntity.name recipe;
          "📝 材料数: "
          ++ str_of_nat (List.length (RecipeEntity.ingredients recipe)) ++ "個";
          nl ++ "📋 材料リスト:" ]
        (ingredient_lines 1 (RecipeEntity.ingredients recipe))
  | None => [ nl ++ "❌ レシピ情報の抽出に失敗しました" ]
  end.

Definition total_lines (o : option Q) : list string :=
  if truthy_number o
  then
    [ nl ++ "🕐 総調理時間: "
      ++ match o with
         | Some minutes => str_of_float minutes
         | None => EmptyString
         end
      ++ "分" ]
  else [ nl ++ "⏰ 調理時間情報なし" ].

(** The arguments of the successive [print] calls. *)
Definition display_results (result : RecipeExtractionResult.t) : list string :=
  List.app [ nl ++ times "=" 50; "📊 === レシピ抽出結果 ==="; times "=" 50 ]
    (List.app (recipe_lines (RecipeExtractionResult.extracted_recipe result))
       (List.app
          (total_lines (RecipeExtractionResult.total_cooking_minutes result))
          [ nl ++ times "=" 50; nl ++ "📄 JSON出力:";
            dumps (json_result result) ])).

End ResultDisplayer.

(** ** pdf_service.py *)

Module PdfService.

(** What the code uses of the object returned by [requests.get]. *)
Record Response : Type :=
  mkResponse { raise_for_status : result unit; content : string }.

Section Service.

(** [requests.get(url, timeout=30)]; [PdfReader(io.BytesIO(pdf_bytes))],
    giving for each page what [page.extract_text()] does; [str.strip];
    [text_splitter.split_documents]. *)
Variable requests_get : string -> result Response.
Variable PdfReader : string -> result (list (result string)).
Variable strip : string -> string.
Variable split_documents : list Document -> result (list Document).

(** [try: ... except Exception as e: raise Exception(f"<prefix>{e}")] *)
Definition reraise {A : Type} (prefix : string) (body : result A) : result A :=
  match body with
  | Ok a => Ok a
  | Raise e => Raise (OtherException (prefix ++ str e))
  end.

Definition download_pdf_sync (url : string) : result string :=
  reraise "PDFダウンロードエラー: "
    (response <- requests_get url ;;
     _ <- raise_for_status response ;;
     Ok (content response)).

(** The loop [for page in reader.pages: text += page.extract_text() + "\n"]. *)
Fixpoint extract_pages (pages : list (result string)) (text : string)
  : result string :=
  match pages with
  | [] => Ok text
  | page :: rest =>
      page_text <- page ;;
      extract_pages rest (text ++ page_text ++ nl)
  end.

Definition parse_document (pdf_bytes : string) : result Document :=
  reraise "PDF解析エラー: "
    (pages <- PdfReader pdf_bytes ;;
     text <- extract_pages pages EmptyString ;;
     Ok (mkDocument (strip text))).

Definition split_document (document : Document) : result (list Document) :=
  reraise "ドキュメント分割エラー: "
    (chunks <- split_documents [document] ;;
     Ok chunks).

(** A world whose PDF service is this one. *)
Definition world_with_service (w : World) : World :=
  mkWorld download_pdf_sync parse_document split_document
    (b64encode w) (create_chat_model w) (create_embedding_model w)
    (Chroma_from_documents w).

End Service.

End PdfService.

(** ** Concrete worlds and inputs

    Used to run the definitions on explicit inputs. *)

Definition unreachable : exn := OtherException "connection refused".

(** Nothing behind the network answers. *)
Definition offline_world : World :=
  mkWorld (fun _ => Raise unreachable) (fun _ => Raise unreachable)
    (fun _ => Raise unreachable) (fun bytes => bytes)
    (Raise unreachable) (Raise unreachable) (fun _ _ => Raise unreachable).

(** An embedding model that fails on the text ["b"] only. *)
Definition flaky_embeddings : OpenAIEmbeddings :=
  mkOpenAIEmbeddings
    (fun chunk =>
       if String.eqb chunk "b" then Raise (OtherException "rate limit")
       else Ok [1%Q]).

Definition flaky_world : World :=
  mkWorld (fun _ => Raise unreachable) (fun _ => Raise unreachable)
    (fun _ => Raise unreachable) (fun bytes => bytes)
    (Raise unreachable) (Ok flaky_embeddings) (fun _ _ => Raise unreachable).

(** A vector store that is built, but whose similarity search raises. *)
Definition broken_store : Chroma :=
  mkChroma (fun _ _ => Raise (OtherException "index unavailable")) (Ok tt).

Definition broken_search_world : World :=
  mkWorld (fun _ => Raise unreachable) (fun _ => Raise unreachable)
    (fun _ => Raise unreachable) (fun bytes => bytes)
    (Raise unreachable) (Ok flaky_embeddings) (fun _ _ => Ok broken_store).

Definition curry : RecipeEntity.t :=
  RecipeEntity.mk "カレーライス" [Ingredient.mk "玉ねぎ" "個" 2%Q].

(** A chat model whose first answer to the recipe chain fails schema
    validation and whose second answer is valid. *)
Definition second_try_model : ChatOpenAI :=
  mkChatOpenAI
    (fun _ _ => Raise unreachable)
    (fun attempt_number _ =>
       match attempt_number with
       | 1%nat => Raise (OutputParserException "invalid json")
       | _ => Ok curry
       end)
    (fun _ => Raise unreachable).

Definition second_try_world : World :=
  mkWorld (fun _ => Raise unreachable) (fun _ => Raise unreachable)
    (fun _ => Raise unreachable) (fun bytes => bytes)
    (Ok second_try_model) (Raise unreachable) (fun _ _ => Raise unreachable).

(** A chat model that judges every document not to be a recipe, behind a
    download that succeeds. *)
Definition rejecting_model : ChatOpenAI :=
  mkChatOpenAI (fun _ _ => Ok (mkPdfValidationResult false "invoice"))
    (fun _ _ => Raise unreachable) (fun _ => Raise unreachable).

Definition rejecting_world : World :=
  mkWorld (fun _ => Ok "%PDF-1.4") (fun _ => Raise unreachable)
    (fun _ => Raise unreachable) (fun bytes => bytes)
    (Ok rejecting_model) (Raise unreachable) (fun _ _ => Raise unreachable).

(** Every collaborator answers: the document is judged a recipe, the
    search returns one segment, the recipe chain returns [curry] and the
    agent records a [sum_minutes] call. *)
Definition helpful_store : Chroma :=
  mkChroma (fun _ _ => Ok [mkDocument "a"]) (Ok tt).

Definition helpful_world : World :=
  mkWorld (fun _ => Ok "%PDF-1.4") (fun _ => Ok (mkDocument "a"))
    (fun _ => Ok [mkDocument "a"]) (fun bytes => bytes)
    (Ok (mkChatOpenAI (fun _ _ => Ok (mkPdfValidationResult true "recipe"))
           (fun _ _ => Ok curry)
           (fun _ =>
              Ok (mkAgentResult "30"
                    (Some [(mkAgentAction (Some "sum_minutes")
                              (Some [mkAIMessage ""
                                       (Some [ToolCall.mk "sum_minutes"
                                                [10%Q; 15%Q; 5%Q]])]),
                            "30.0")])))))
    (Ok flaky_embeddings) (fun _ _ => Ok helpful_store).

(** A vector store whose search answers, but whose collection cannot be
    deleted afterwards. *)
Definition undeletable_store : Chroma :=
  mkChroma (fun _ _ => Ok [mkDocument "d"])
    (Raise (OtherException "collection is locked")).

Definition undeletable_world : World :=
  mkWorld (fun _ => Raise unreachable) (fun _ => Raise unreachable)
    (fun _ => Raise unreachable) (fun bytes => bytes)
    (Raise unreachable) (Ok flaky_embeddings) (fun _ _ => Ok undeletable_store).

(** A server that answers the request with an error status. *)
Definition not_found_response : PdfService.Response :=
  PdfService.mkResponse (Raise (OtherException "404 Client Error"))
    "<html>not found</html>".

Definition doc_a : Document := mkDocument "a".
Definition doc_b : Document := mkDocument "b".
Definition doc_c : Document := mkDocument "c".
Definition doc_d : Document := mkDocument "d".

(** An agent result whose prose answer disagrees with the arguments of the
    tool call it records. *)
Definition sum_call : ToolCall.t := ToolCall.mk "sum_minutes" [10%Q; 15%Q; 5%Q].

Definition sum_action : AgentAction :=
  mkAgentAction (Some "sum_minutes") (Some [mkAIMessage "" (Some [sum_call])]).

Definition sample_agent_result : AgentResult :=
  mkAgentResult "合計は25分です" (Some [(sum_action, "30.0")]).

Definition accepted : PdfValidationResult := mkPdfValidationResult true "recipe".

Definition state_with_validation (v : PdfValidationResult) : WorkflowState :=
  spread (initial_state "https://example.org/recipe.pdf") (set_validation_result v).

(** * Properties *)

(** ** The definitions on explicit inputs *)

Example filename_of_url :
  or_else (last_component "https://example.org/pdf/recipe05.pdf" EmptyString)
    "recipe.pdf" = "recipe05.pdf"
  /\ or_else (last_component "https://example.org/pdf/" EmptyString)
       "recipe.pdf" = "recipe.pdf".
Proof. split; reflexivity. Qed.

Example slices :
  slice_to [doc_a; doc_b; doc_c; doc_d] 3 = [doc_a; doc_b; doc_c]
  /\ slice_to [doc_a; doc_b] 5 = [doc_a; doc_b]
  /\ slice_to [doc_a; doc_b; doc_c] (-1) = [doc_a; doc_b].
Proof. repeat split; reflexivity. Qed.

Example sum_minutes_examples :
  sum_minutes [] = 0%Q /\ sum_minutes [10%Q; 15%Q; 5%Q] = 30%Q.
Proof. split; reflexivity. Qed.

(** With nothing reachable the validate node falls back to "is a recipe",
    every later node degrades, and the run still ends in
    [create_final_result] with an empty result. *)
Example offline_run :
  option_map (fun run => map fst (snd run))
    (invoke (create_langgraph_workflow offline_world)
       (initial_state "https://example.org/recipe.pdf"))
  = Some [ "validate_recipe_pdf"; "download_extract_pdf"; "split_chunks";
           "create_embeddings"; "find_relevant_chunks";
           "extract_recipe_entity"; "extract_cooking_time";
           "create_final_result" ]
  /\ execute_langgraph_workflow offline_world "https://example.org/recipe.pdf"
     = Some (RecipeExtractionResult.mk None None).
Proof. split; reflexivity. Qed.

Example rejected_run :
  option_map (fun run => map fst (snd run))
    (invoke (create_langgraph_workflow rejecting_world)
       (initial_state "https://example.org/invoice.pdf"))
  = Some [ "validate_recipe_pdf"; "not_recipe_finish" ]
  /\ execute_langgraph_workflow rejecting_world "https://example.org/invoice.pdf"
     = Some (RecipeExtractionResult.mk None None).
Proof. split; reflexivity. Qed.

(** ** The conditional edge *)

(** C5: when [validation_result] is present, the classifier answers
    ["continue"] if [is_recipe] is true and ["stop"] if it is false, and the
    graph maps these labels to [download_extract_pdf] and
    [not_recipe_finish]. *)
Theorem should_continue_follows_is_recipe :
  forall (w : World) (state : WorkflowState) (v : PdfValidationResult),
    validation_result state = Some v ->
    (is_recipe v = true ->
       _should_continue_processing state = "continue" /\
       next_node (create_langgraph_workflow w) "validate_recipe_pdf" state
         = Some "download_extract_pdf") /\
    (is_recipe v = false ->
       _should_continue_processing state = "stop" /\
       next_node (create_langgraph_workflow w) "validate_recipe_pdf" state
         = Some "not_recipe_finish").
Proof.
  intros w state v Hv.
  assert (Hlabel : _should_continue_processing state
                   = if is_recipe v then "continue" else "stop")
    by (unfold _should_continue_processing; rewrite Hv; reflexivity).
  unfold next_node; cbn [create_langgraph_workflow conditional_edges lookup].
  cbn [String.eqb Ascii.eqb Bool.eqb]; rewrite Hlabel.
  split; intros Hr; rewrite Hr; split; reflexivity.
Qed.

(** C5 on a state that was accepted. *)
Lemma should_continue_follows_is_recipe_witness :
  validation_result (state_with_validation accepted) = Some accepted /\
  is_recipe accepted = true /\
  _should_continue_processing (state_with_validation accepted) = "continue" /\
  next_node (create_langgraph_workflow offline_world) "validate_recipe_pdf"
    (state_with_validation accepted) = Some "download_extract_pdf".
Proof.
  split; [reflexivity | split; [reflexivity | ]].
  apply (proj1 (should_continue_follows_is_recipe offline_world
                  (state_with_validation accepted) accepted eq_refl)).
  reflexivity.
Defined.

(** The claim of C1 fails on the initial state, whose [validation_result]
    is absent: the classifier answers ["stop"], not ["continue"]. *)
Lemma absent_validation_is_not_continue :
  validation_result (initial_state "https://example.org/recipe.pdf") = None /\
  _should_continue_processing (initial_state "https://example.org/recipe.pdf")
    <> "continue".
Proof. split; [reflexivity | discriminate]. Qed.

(** C1, amended: when [validation_result] is absent the classifier answers
    ["stop"], which the graph maps to [not_recipe_finish]. *)
Theorem absent_validation_stops :
  forall (w : World) (state : WorkflowState),
    validation_result state = None ->
    _should_continue_processing state = "stop" /\
    next_node (create_langgraph_workflow w) "validate_recipe_pdf" state
      = Some "not_recipe_finish".
Proof.
  intros w state Hnone.
  assert (Hlabel : _should_continue_processing state = "stop")
    by (unfold _should_continue_processing; rewrite Hnone; reflexivity).
  split; [exact Hlabel | ].
  unfold next_node; cbn [create_langgraph_workflow conditional_edges lookup].
  cbn [String.eqb Ascii.eqb Bool.eqb]; rewrite Hlabel; reflexivity.
Qed.

Lemma absent_validation_stops_witness :
  validation_result (initial_state "https://example.org/recipe.pdf") = None /\
  _should_continue_processing (initial_state "https://example.org/recipe.pdf")
    = "stop" /\
  next_node (create_langgraph_workflow offline_world) "validate_recipe_pdf"
    (initial_state "https://example.org/recipe.pdf") = Some "not_recipe_finish".
Proof.
  split; [reflexivity | ].
  apply (absent_validation_stops offline_world
           (initial_state "https://example.org/recipe.pdf")).
  reflexivity.
Defined.

(** ** The terminal node of a rejected document *)

(** C7: whatever the state holds, [not_recipe_finish] sets [final_result] to
    a result whose [extracted_recipe] and [total_cooking_minutes] are both
    [None]; every other field of the state is kept. *)
Theorem not_recipe_finish_is_empty :
  forall state : WorkflowState,
    let state' := spread state (_not_recipe_finish_node state) in
    (exists r,
       final_result state' = Some r /\
       RecipeExtractionResult.extracted_recipe r = None /\
       RecipeExtractionResult.total_cooking_minutes r = None) /\
    pdf_content state' = pdf_content state /\
    extracted_recipe state' = extracted_recipe state /\
    total_cooking_minutes state' = total_cooking_minutes state.
Proof.
  intros state; cbn.
  split; [ | repeat split].
  exists (RecipeExtractionResult.mk None None); repeat split.
Qed.

(** ** The validate node *)

Lemma validate_sets_validation_result :
  forall (w : World) (state : WorkflowState),
    exists v, _validate_recipe_pdf_node w state = set_validation_result v.
Proof.
  intros w state; unfold _validate_recipe_pdf_node.
  destruct (download_pdf_sync w (pdf_url state)) as [pdf_bytes | e]; cbn;
    [ | eexists; reflexivity].
  destruct (create_chat_model w) as [chat_model | e]; cbn;
    [ | eexists; reflexivity].
  destruct (validation_chain chat_model _ _) as [v | e]; cbn;
    eexists; reflexivity.
Qed.

(** C6: the validate node returns a state for every input and every
    behaviour of its collaborators, and [validation_result] is present in
    it.  When the download raises, when the chat model cannot be built, or
    when the chain (model call and output parser) raises, the value is the
    fallback, whose [is_recipe] is true and whose [reason] is not empty. *)
Theorem validate_never_fails :
  forall (w : World) (state : WorkflowState),
    let url := pdf_url state in
    let filename := or_else (last_component url EmptyString) "recipe.pdf" in
    let state' := spread state (_validate_recipe_pdf_node w state) in
    (exists v, validation_result state' = Some v) /\
    (forall e,
       download_pdf_sync w url = Raise e ->
       validation_result state' = Some fallback_validation_result) /\
    (forall pdf_bytes e,
       download_pdf_sync w url = Ok pdf_bytes ->
       create_chat_model w = Raise e ->
       validation_result state' = Some fallback_validation_result) /\
    (forall pdf_bytes chat_model e,
       download_pdf_sync w url = Ok pdf_bytes ->
       create_chat_model w = Ok chat_model ->
       validation_chain chat_model filename (b64encode w pdf_bytes) = Raise e ->
       validation_result state' = Some fallback_validation_result) /\
    is_recipe fallback_validation_result = true /\
    reason fallback_validation_result <> EmptyString.
Proof.
  intros w state url filename state'.
  split.
  { destruct (validate_sets_validation_result w state) as [v Hv].
    exists v; subst state'; rewrite Hv; reflexivity. }
  subst state' url filename; unfold _validate_recipe_pdf_node.
  repeat split.
  - intros e Hd; rewrite Hd; reflexivity.
  - intros pdf_bytes e Hd Hm; rewrite Hd; cbn; rewrite Hm; reflexivity.
  - intros pdf_bytes chat_model e Hd Hm Hc.
    rewrite Hd; cbn; rewrite Hm; cbn; rewrite Hc; reflexivity.
  - discriminate.
Qed.

Lemma validate_never_fails_witness :
  download_pdf_sync offline_world "https://example.org/recipe.pdf"
    = Raise unreachable /\
  validation_result
    (spread (initial_state "https://example.org/recipe.pdf")
       (_validate_recipe_pdf_node offline_world
          (initial_state "https://example.org/recipe.pdf")))
    = Some fallback_validation_result.
Proof.
  split; [reflexivity | ].
  apply (proj1 (proj2 (validate_never_fails offline_world
                         (initial_state "https://example.org/recipe.pdf")))
           unreachable).
  reflexivity.
Defined.

(** ** The total read from the agent trace *)

Lemma sum_minutes_is_py_sum :
  forall minutes_list, sum_minutes minutes_list = py_sum minutes_list.
Proof. intros [ | x l]; reflexivity. Qed.

Lemma first_sum_minutes_call_some :
  forall calls total,
    first_sum_minutes_call calls = Some total ->
    exists call,
      In call calls /\ ToolCall.name call = "sum_minutes" /\
      total = py_sum (ToolCall.args call).
Proof.
  induction calls as [ | call rest IH]; intros total H; cbn in H.
  - discriminate.
  - destruct (String.eqb (ToolCall.name call) "sum_minutes") eqn:Hname.
    + apply String.eqb_eq in Hname. inversion H; subst.
      exists call; split; [left; reflexivity | split; [exact Hname | ]].
      apply sum_minutes_is_py_sum.
    + destruct (IH total H) as (c & Hin & Hc & Ht).
      exists c; split; [right; exact Hin | split; assumption].
Qed.

Lemma first_sum_minutes_call_none :
  forall calls call,
    first_sum_minutes_call calls = None ->
    In call calls -> ToolCall.name call <> "sum_minutes".
Proof.
  induction calls as [ | c rest IH]; intros call H Hin; cbn in H.
  - destruct Hin.
  - destruct (String.eqb (ToolCall.name c) "sum_minutes") eqn:Hname;
      [discriminate | ].
    destruct Hin as [-> | Hin].
    + apply String.eqb_neq; exact Hname.
    + apply IH; assumption.
Qed.

Lemma inspect_step_some :
  forall step total,
    inspect_step step = Some total ->
    exists call, records_sum_minutes_call [step] call /\
                 total = py_sum (ToolCall.args call).
Proof.
  intros [action observation] total H; unfold inspect_step in H.
  destruct (tool action) as [name | ] eqn:Htool; [ | discriminate].
  destruct (String.eqb name "sum_minutes") eqn:Hname; [ | discriminate].
  apply String.eqb_eq in Hname; subst name.
  destruct (message_log action) as [[ | message rest] | ] eqn:Hlog;
    try discriminate.
  destruct (tool_calls message) as [calls | ] eqn:Hcalls; [ | discriminate].
  destruct (first_sum_minutes_call_some _ _ H) as (call & Hin & Hc & Ht).
  exists call; split; [ | exact Ht].
  exists action, observation, message, rest, calls.
  repeat split; try assumption. left; reflexivity.
Qed.

Lemma inspect_step_none :
  forall step call,
    inspect_step step = None -> ~ records_sum_minutes_call [step] call.
Proof.
  intros [action observation] call H
    (a & o & message & rest & calls & Hin & Htool & Hlog & Hcalls & Hc & Hname).
  destruct Hin as [Heq | []]; inversion Heq; subst a o.
  unfold inspect_step in H; rewrite Htool, Hlog, Hcalls in H; cbn in H.
  exact (first_sum_minutes_call_none _ _ H Hc Hname).
Qed.

Lemma records_cons :
  forall step steps call,
    records_sum_minutes_call (step :: steps) call <->
    records_sum_minutes_call [step] call \/ records_sum_minutes_call steps call.
Proof.
  intros step steps call; split.
  - intros (a & o & m & rest & calls & Hin & H).
    destruct Hin as [Heq | Hin].
    + left; exists a, o, m, rest, calls; split; [left; exact Heq | exact H].
    + right; exists a, o, m, rest, calls; split; [exact Hin | exact H].
  - intros [(a & o & m & rest & calls & Hin & H)
           | (a & o & m & rest & calls & Hin & H)];
      exists a, o, m, rest, calls; (split; [ | exact H]).
    + destruct Hin as [Heq | []]; left; exact Heq.
    + right; exact Hin.
Qed.

Lemma inspect_steps_some :
  forall steps total,
    inspect_steps steps = Some total ->
    exists call, records_sum_minutes_call steps call /\
                 total = py_sum (ToolCall.args call).
Proof.
  induction steps as [ | step rest IH]; intros total H; cbn in H.
  - discriminate.
  - destruct (inspect_step step) as [t | ] eqn:Hstep.
    + inversion H; subst t.
      destruct (inspect_step_some _ _ Hstep) as (call & Hrec & Ht).
      exists call; split; [apply records_cons; left; exact Hrec | exact Ht].
    + destruct (IH total H) as (call & Hrec & Ht).
      exists call; split; [apply records_cons; right; exact Hrec | exact Ht].
Qed.

Lemma inspect_steps_none :
  forall steps,
    inspect_steps steps = None <->
    (forall call, ~ records_sum_minutes_call steps call).
Proof.
  induction steps as [ | step rest IH]; cbn.
  - split; [ | reflexivity].
    intros _ call (a & o & m & r & calls & [] & _).
  - destruct (inspect_step step) as [t | ] eqn:Hstep.
    + split; [discriminate | ].
      intros Hno. destruct (inspect_step_some _ _ Hstep) as (call & Hrec & _).
      exfalso; apply (Hno call); apply records_cons; left; exact Hrec.
    + rewrite IH; split.
      * intros Hrest call Hrec; apply records_cons in Hrec.
        destruct Hrec as [Hrec | Hrec];
          [exact (inspect_step_none _ _ Hstep Hrec) | exact (Hrest call Hrec)].
      * intros Hall call Hrec; apply (Hall call); apply records_cons;
          right; exact Hrec.
Qed.

(** C2: the total reported by the time-extraction step is read from the
    structured trace.  If a total is reported, it is the sum of the literal
    arguments of a [sum_minutes] call recorded in the trace; it is [None]
    exactly when the trace records no such call, in particular when no step
    is an action of the tool [sum_minutes]; when the recorded calls all carry
    the argument list [l], the total is the sum of [l]; the prose answer
    ([output]) never influences it; [extract_cooking_time_with_tools]
    reports what [_extract_sum_minutes_from_agent_result] finds; arguments
    [[10, 15, 5]] give [30] although the prose says 25. *)
Theorem tool_sum_fidelity :
  forall r : AgentResult,
    (forall total,
       _extract_sum_minutes_from_agent_result r = Some total ->
       exists call,
         records_sum_minutes_call (steps_of r) call /\
         total = py_sum (ToolCall.args call)) /\
    (_extract_sum_minutes_from_agent_result r = None <->
     forall call, ~ records_sum_minutes_call (steps_of r) call) /\
    ((forall action observation,
        In (action, observation) (steps_of r) ->
        tool action <> Some "sum_minutes") ->
     _extract_sum_minutes_from_agent_result r = None) /\
    (forall l,
       (exists call, records_sum_minutes_call (steps_of r) call) ->
       (forall call,
          records_sum_minutes_call (steps_of r) call -> ToolCall.args call = l) ->
       _extract_sum_minutes_from_agent_result r = Some (py_sum l)) /\
    (forall prose,
       _extract_sum_minutes_from_agent_result
         (mkAgentResult prose (intermediate_steps r))
       = _extract_sum_minutes_from_agent_result r) /\
    (forall w segments chat_model,
       create_chat_model w = Ok chat_model ->
       agent_executor chat_model (agent_input (context_of segments)) = Ok r ->
       extract_cooking_time_with_tools w segments
       = _extract_sum_minutes_from_agent_result r) /\
    _extract_sum_minutes_from_agent_result sample_agent_result = Some 30%Q.
Proof.
  intros r; unfold _extract_sum_minutes_from_agent_result; cbn zeta.
  split; [ | split; [ | split; [ | split; [ | split; [ | split]]]]].
  - intros total H; exact (inspect_steps_some _ _ H).
  - apply inspect_steps_none.
  - intros Hno; apply inspect_steps_none.
    intros call (a & o & m & rest & calls & Hin & Htool & _).
    exact (Hno a o Hin Htool).
  - intros l [call Hrec] Hall.
    destruct (inspect_steps (steps_of r)) as [total | ] eqn:Hfound.
    + destruct (inspect_steps_some _ _ Hfound) as (c & Hc & Ht).
      rewrite Ht, (Hall c Hc); reflexivity.
    + exfalso; exact (proj1 (inspect_steps_none _) Hfound call Hrec).
  - intros prose; reflexivity.
  - intros w segments chat_model Hm Hr.
    unfold extract_cooking_time_with_tools; cbn zeta.
    rewrite Hm; cbn [bind]; rewrite Hr; cbn [bind].
    unfold _extract_sum_minutes_from_agent_result; cbn zeta.
    destruct (inspect_steps (steps_of r)); reflexivity.
  - reflexivity.
Qed.

Lemma tool_sum_fidelity_witness :
  records_sum_minutes_call (steps_of sample_agent_result) sum_call /\
  (forall call,
     records_sum_minutes_call (steps_of sample_agent_result) call ->
     ToolCall.args call = [10%Q; 15%Q; 5%Q]) /\
  _extract_sum_minutes_from_agent_result sample_agent_result
    = Some (py_sum [10%Q; 15%Q; 5%Q]).
Proof.
  assert (Hrec : records_sum_minutes_call (steps_of sample_agent_result) sum_call).
  { exists sum_action, "30.0", (mkAIMessage "" (Some [sum_call])), [], [sum_call].
    repeat split; left; reflexivity. }
  assert (Hall : forall call,
             records_sum_minutes_call (steps_of sample_agent_result) call ->
             ToolCall.args call = [10%Q; 15%Q; 5%Q]).
  { intros call (a & o & m & rest & calls & Hin & _ & Hlog & Hcalls & Hc & _).
    destruct Hin as [Heq | []]; inversion Heq; subst a o.
    inversion Hlog; subst m rest. inversion Hcalls; subst calls.
    destruct Hc as [<- | []]; reflexivity. }
  split; [exact Hrec | split; [exact Hall | ]].
  apply (proj1 (proj2 (proj2 (proj2 (tool_sum_fidelity sample_agent_result))))
           [10%Q; 15%Q; 5%Q]).
  - exists sum_call; exact Hrec.
  - exact Hall.
Defined.

(** ** The embed node *)

Lemma embed_chunks_all_succeed :
  forall (m : OpenAIEmbeddings) (chunks : list string),
    (forall chunk, In chunk chunks -> exists v, embed_query m chunk = Ok v) ->
    embed_chunks m chunks = Ok (spec_independent_embeddings m chunks).
Proof.
  induction chunks as [ | chunk rest IH]; intros Hall; cbn.
  - reflexivity.
  - destruct (Hall chunk (or_introl eq_refl)) as [v Hv]; rewrite Hv; cbn.
    rewrite IH; [reflexivity | ].
    intros c Hc; apply Hall; right; exact Hc.
Qed.

Lemma embed_chunks_one_fails :
  forall (m : OpenAIEmbeddings) (chunks : list string) (chunk : string) (e : exn),
    In chunk chunks -> embed_query m chunk = Raise e ->
    exists e', embed_chunks m chunks = Raise e'.
Proof.
  induction chunks as [ | c rest IH]; intros chunk e Hin Hfail; cbn.
  - destruct Hin.
  - destruct (embed_query m c) as [v | e0] eqn:Hc; cbn; [ | eexists; reflexivity].
    destruct Hin as [-> | Hin]; [congruence | ].
    destruct (IH chunk e Hin Hfail) as [e' He']; rewrite He'; cbn.
    eexists; reflexivity.
Qed.

Lemma spec_independent_embeddings_texts :
  forall (m : OpenAIEmbeddings) (chunks : list string),
    (forall chunk, In chunk chunks -> exists v, embed_query m chunk = Ok v) ->
    map chunk_text (spec_independent_embeddings m chunks) = chunks.
Proof.
  induction chunks as [ | chunk rest IH]; intros Hall; cbn.
  - reflexivity.
  - destruct (Hall chunk (or_introl eq_refl)) as [v Hv]; rewrite Hv; cbn.
    rewrite IH; [reflexivity | ].
    intros c Hc; apply Hall; right; exact Hc.
Qed.

(** The claim of C3 fails when the embedding of the second of three
    segments raises: the pairs of the first and the third segment, which
    were or could be embedded, are not returned; the list is empty. *)
Lemma one_failure_drops_every_pair :
  embed_query flaky_embeddings "a" = Ok [1%Q] /\
  embed_query flaky_embeddings "b" = Raise (OtherException "rate limit") /\
  embed_query flaky_embeddings "c" = Ok [1%Q] /\
  spec_independent_embeddings flaky_embeddings ["a"; "b"; "c"]
    = [from_embedding "a" [1%Q]; from_embedding "c" [1%Q]] /\
  create_openai_embeddings flaky_world ["a"; "b"; "c"] = [] /\
  create_openai_embeddings flaky_world ["a"; "b"; "c"]
    <> spec_independent_embeddings flaky_embeddings ["a"; "b"; "c"] /\
  _create_embeddings_node flaky_world
    (spread (initial_state "https://example.org/recipe.pdf")
       (set_document_chunks (DocumentChunks.mk "abc" [doc_a; doc_b; doc_c])))
  = set_embedded_chunks (EmbeddedChunks.mk [doc_a; doc_b; doc_c] []).
Proof.
  repeat split; try reflexivity. discriminate.
Qed.

(** C3, amended: the segments are embedded in order inside one [try]
    block.  If every embedding succeeds, the pairs of all segments are
    returned in input order; if the embedding of any segment raises, or the
    embedding model cannot be built, the list of pairs is empty.  In each
    case the node does not fail: given [document_chunks], it sets
    [embedded_chunks] to the full segment list with that list of pairs. *)
Theorem embeddings_all_or_nothing :
  forall (w : World) (chunks : list string),
    (forall m,
       create_embedding_model w = Ok m ->
       (forall chunk, In chunk chunks -> exists v, embed_query m chunk = Ok v) ->
       create_openai_embeddings w chunks = spec_independent_embeddings m chunks /\
       map chunk_text (create_openai_embeddings w chunks) = chunks) /\
    (forall m chunk e,
       create_embedding_model w = Ok m ->
       In chunk chunks -> embed_query m chunk = Raise e ->
       create_openai_embeddings w chunks = []) /\
    (forall e,
       create_embedding_model w = Raise e ->
       create_openai_embeddings w chunks = []) /\
    (forall state dc,
       document_chunks state = Some dc ->
       _create_embeddings_node w state
       = set_embedded_chunks
           (EmbeddedChunks.mk (DocumentChunks.text_segments dc)
              (create_openai_embeddings w
                 (map page_content (DocumentChunks.text_segments dc))))).
Proof.
  intros w chunks; unfold create_openai_embeddings.
  split; [ | split; [ | split]].
  - intros m Hm Hall; rewrite Hm; cbn [bind].
    rewrite (embed_chunks_all_succeed _ _ Hall); cbn [try_except].
    split; [reflexivity | apply spec_independent_embeddings_texts; exact Hall].
  - intros m chunk e Hm Hin Hfail; rewrite Hm; cbn [bind].
    destruct (embed_chunks_one_fails _ _ _ _ Hin Hfail) as [e' He'].
    rewrite He'; reflexivity.
  - intros e Hm; rewrite Hm; reflexivity.
  - intros state dc Hdc; unfold _create_embeddings_node.
    rewrite Hdc; reflexivity.
Qed.

Lemma embeddings_all_or_nothing_witness :
  create_embedding_model flaky_world = Ok flaky_embeddings /\
  In "b" ["a"; "b"; "c"] /\
  embed_query flaky_embeddings "b" = Raise (OtherException "rate limit") /\
  create_openai_embeddings flaky_world ["a"; "b"; "c"] = [].
Proof.
  split; [reflexivity | split; [right; left; reflexivity | split; [reflexivity | ]]].
  apply (proj1 (proj2 (embeddings_all_or_nothing flaky_world ["a"; "b"; "c"]))
           flaky_embeddings "b" (OtherException "rate limit")).
  - reflexivity.
  - right; left; reflexivity.
  - reflexivity.
Defined.

(** ** Retrieval without embedded chunks *)

(** The claim of C4 fails on the initial state, where [embedded_chunks] is
    absent: the entity-retrieval node does not produce an empty list of
    relevant segments, it leaves [recipe_relevant_segments] absent and
    records an error. *)
Lemma absent_chunks_give_no_segment_list :
  let state := initial_state "https://example.org/recipe.pdf" in
  let state' := spread state (_find_relevant_chunks_node offline_world state) in
  embedded_chunks state = None /\
  recipe_relevant_segments state' <> Some [] /\
  recipe_relevant_segments state' = None /\
  error state' <> None.
Proof.
  cbn; repeat split; discriminate.
Qed.

(** C4, amended: when [embedded_chunks] is absent, neither retrieval step
    raises and neither calls the retriever: what the two nodes return is the
    same in every world, whatever the collaborators would answer.  The
    entity-retrieval node records the text of the [AttributeError],
    ['NoneType' object has no attribute 'text_segments'], in [error] and
    leaves [recipe_relevant_segments] as it was; the time-extraction node
    sets [total_cooking_minutes] to [None]. *)
Theorem absent_chunks_are_tolerated :
  forall (w w' : World) (state : WorkflowState),
    embedded_chunks state = None ->
    _find_relevant_chunks_node w state
      = set_error "'NoneType' object has no attribute 'text_segments'" /\
    error (spread state (_find_relevant_chunks_node w state))
      = Some "'NoneType' object has no attribute 'text_segments'" /\
    recipe_relevant_segments (spread state (_find_relevant_chunks_node w state))
      = recipe_relevant_segments state /\
    _extract_cooking_time_node w state = set_total_cooking_minutes None /\
    total_cooking_minutes (spread state (_extract_cooking_time_node w state))
      = None /\
    _find_relevant_chunks_node w' state = _find_relevant_chunks_node w state /\
    _extract_cooking_time_node w' state = _extract_cooking_time_node w state.
Proof.
  intros w w' state Hnone.
  unfold _find_relevant_chunks_node, _extract_cooking_time_node.
  rewrite Hnone; cbn.
  repeat split.
Qed.

Lemma absent_chunks_are_tolerated_witness :
  embedded_chunks (initial_state "https://example.org/recipe.pdf") = None /\
  _find_relevant_chunks_node helpful_world
    (initial_state "https://example.org/recipe.pdf")
  = set_error "'NoneType' object has no attribute 'text_segments'" /\
  _extract_cooking_time_node helpful_world
    (initial_state "https://example.org/recipe.pdf")
  = set_total_cooking_minutes None.
Proof.
  split; [reflexivity | ].
  pose proof (absent_chunks_are_tolerated helpful_world offline_world
                (initial_state "https://example.org/recipe.pdf") eq_refl)
    as (Hfind & _ & _ & Htime & _).
  split; [exact Hfind | exact Htime].
Defined.

(** ** Retrieval when the search fails *)

Lemma firstn_empty_iff :
  forall (A : Type) (n : nat) (l : list A),
    firstn n l = [] <-> l = [] \/ n = O.
Proof.
  intros A [ | n] [ | x l]; cbn; split; intros H; try tauto; try discriminate.
  destruct H as [H | H]; discriminate H.
Qed.

(** The claim of C10 fails when there is no segment to fall back on: with
    an empty list of documents and a similarity search that raises,
    [perform_rag_search] returns the empty list, and the entity-retrieval
    node stores it. *)
Lemma no_document_gives_empty_fallback :
  similarity_search broken_store recipe_query 5
    = Raise (OtherException "index unavailable") /\
  chroma_search broken_search_world [] recipe_query 5
    = Raise (OtherException "index unavailable") /\
  perform_rag_search broken_search_world [] recipe_query 5 = [] /\
  _find_relevant_chunks_node broken_search_world
    (spread (initial_state "https://example.org/recipe.pdf")
       (set_embedded_chunks (EmbeddedChunks.mk [] [])))
  = set_recipe_relevant_segments [].
Proof. repeat split. Qed.

(** C10, amended: when the search inside [perform_rag_search] raises,
    whether in the similarity search itself or elsewhere in the [try]
    block, the function does not propagate the exception: it returns
    [documents[:max_results]], a prefix of the input documents in their
    input order.  For [max_results >= 0], as passed by both callers, these
    are the first [max_results] documents, fewer when there are fewer, and
    the list is empty exactly when there is no document or [max_results]
    is 0.  The entity-retrieval node stores this list. *)
Theorem rag_search_falls_back :
  forall (w : World) (documents : list Document) (query : string)
         (max_results : Z) (e : exn),
    chroma_search w documents query max_results = Raise e ->
    let found := perform_rag_search w documents query max_results in
    found = slice_to documents max_results /\
    (exists rest, documents = (found ++ rest)%list) /\
    ((0 <= max_results)%Z ->
     found = firstn (Z.to_nat max_results) documents /\
     List.length found = Nat.min (Z.to_nat max_results) (List.length documents) /\
     (found = [] <-> documents = [] \/ max_results = 0%Z)) /\
    (forall state embedded,
       embedded_chunks state = Some embedded ->
       EmbeddedChunks.text_segments embedded = documents ->
       query = recipe_query -> max_results = 5%Z ->
       _find_relevant_chunks_node w state = set_recipe_relevant_segments found).
Proof.
  intros w documents query max_results e Hraise found.
  assert (Hslice : found = slice_to documents max_results)
    by (subst found; unfold perform_rag_search; rewrite Hraise; reflexivity).
  split; [exact Hslice | ].
  split.
  { rewrite Hslice; unfold slice_to.
    destruct (0 <=? max_results)%Z;
      eexists; symmetry; apply firstn_skipn. }
  split.
  - intros Hk.
    assert (Hfound : found = firstn (Z.to_nat max_results) documents).
    { rewrite Hslice; unfold slice_to.
      destruct (0 <=? max_results)%Z eqn:Hle; [reflexivity | ].
      apply Z.leb_gt in Hle; lia. }
    split; [exact Hfound | ].
    split; [rewrite Hfound; apply length_firstn | ].
    rewrite Hfound, firstn_empty_iff.
    split; (intros [H | H]; [left; exact H | right; lia]).
  - intros state embedded Hec Hsegs Hq Hn.
    unfold _find_relevant_chunks_node; rewrite Hec; cbn [attr_of bind try_except].
    rewrite Hsegs; subst found query max_results; reflexivity.
Qed.

(** A similarity search that raises makes the [try] block raise. *)
Lemma similarity_search_raises :
  forall (w : World) (documents : list Document) (query : string)
         (max_results : Z) (m : OpenAIEmbeddings) (store : Chroma) (e : exn),
    create_embedding_model w = Ok m ->
    Chroma_from_documents w documents m = Ok store ->
    similarity_search store query max_results = Raise e ->
    chroma_search w documents query max_results = Raise e.
Proof.
  intros w documents query max_results m store e Hm Hs He.
  unfold chroma_search; rewrite Hm; cbn [bind]; rewrite Hs; cbn [bind].
  rewrite He; reflexivity.
Qed.

Lemma rag_search_falls_back_witness :
  similarity_search broken_store time_query 3
    = Raise (OtherException "index unavailable") /\
  chroma_search broken_search_world [doc_a; doc_b; doc_c; doc_d] time_query 3
    = Raise (OtherException "index unavailable") /\
  (0 <= 3)%Z /\
  perform_rag_search broken_search_world [doc_a; doc_b; doc_c; doc_d] time_query 3
    = [doc_a; doc_b; doc_c].
Proof.
  split; [reflexivity | split; [reflexivity | split; [lia | ]]].
  apply (proj1 (proj1 (proj2 (proj2
           (rag_search_falls_back broken_search_world
              [doc_a; doc_b; doc_c; doc_d] time_query 3
              (OtherException "index unavailable") eq_refl)))
           (proj1 (Z.leb_le 0 3) eq_refl))).
Defined.

(** ** Retry of the entity extraction *)

Lemma generate_answer_of_chain :
  forall (w : World) (segments : list Document),
    generate_answer_with_agent w segments
    = match fst (invoke_recipe_chain w segments) with
      | Ok recipe => Some recipe
      | Raise _ => None
      end.
Proof.
  intros w segments; unfold generate_answer_with_agent.
  destruct (fst (invoke_recipe_chain w segments)); reflexivity.
Qed.

(** C8: the chain of the entity extraction is run at most twice.  A valid
    first answer is returned after one attempt.  A first attempt that raises
    anything but an output-parsing failure is not retried and gives [None].
    A first attempt that fails output parsing is retried once: a valid
    second answer is returned, any failure of the second attempt gives
    [None] and no third attempt is made.  A recipe is returned only when
    some attempt produced it whole.  The node stores the answer in
    [extracted_recipe]. *)
Theorem entity_extraction_retry :
  forall (w : World) (segments : list Document),
    let context := context_of segments in
    let attempts := snd (invoke_recipe_chain w segments) in
    let answer := generate_answer_with_agent w segments in
    (attempts <= 2)%nat /\
    (forall e, create_chat_model w = Raise e -> answer = None /\ attempts = 0%nat) /\
    (forall chat_model,
       create_chat_model w = Ok chat_model ->
       match recipe_chain chat_model 1 context with
       | Ok recipe => answer = Some recipe /\ attempts = 1%nat
       | Raise (OtherException _) => answer = None /\ attempts = 1%nat
       | Raise (OutputParserException _) =>
           attempts = 2%nat /\
           match recipe_chain chat_model 2 context with
           | Ok recipe => answer = Some recipe
           | Raise _ => answer = None
           end
       end) /\
    (forall recipe,
       answer = Some recipe ->
       exists chat_model n,
         create_chat_model w = Ok chat_model /\ (1 <= n <= 2)%nat /\
         recipe_chain chat_model n context = Ok recipe) /\
    (forall state segment rest,
       recipe_relevant_segments state = Some (segment :: rest) ->
       segments = segment :: rest ->
       _extract_recipe_entity_node w state = set_extracted_recipe answer).
Proof.
  intros w segments context attempts answer.
  subst attempts answer; rewrite generate_answer_of_chain.
  unfold invoke_recipe_chain; cbn zeta; fold context.
  unfold with_retry; cbn [Nat.sub retry_loop is_output_parser_exception].
  split; [ | split; [ | split; [ | split]]].
  - destruct (create_chat_model w) as [m | e]; [ | cbn; lia].
    destruct (recipe_chain m 1 context) as [r | [msg | msg]]; cbn; try lia.
    destruct (recipe_chain m 2 context); cbn; lia.
  - intros e He; rewrite He; split; reflexivity.
  - intros m Hm; rewrite Hm.
    destruct (recipe_chain m 1 context) as [r | [msg | msg]];
      try (split; reflexivity).
    destruct (recipe_chain m 2 context); split; reflexivity.
  - intros recipe.
    destruct (create_chat_model w) as [m | e]; [ | discriminate].
    destruct (recipe_chain m 1 context) as [r | [msg | msg]] eqn:H1; cbn;
      try discriminate.
    + intros H; inversion H; subst r.
      exists m, 1%nat; repeat split; [lia | lia | exact H1].
    + destruct (recipe_chain m 2 context) as [r | e2] eqn:H2; cbn;
        [ | discriminate].
      intros H; inversion H; subst r.
      exists m, 2%nat; repeat split; [lia | lia | exact H2].
  - intros state segment rest Hsegs Heq.
    unfold _extract_recipe_entity_node; rewrite Hsegs, <- Heq.
    rewrite generate_answer_of_chain; unfold invoke_recipe_chain; cbn zeta.
    fold context; unfold with_retry.
    cbn [Nat.sub retry_loop is_output_parser_exception]; reflexivity.
Qed.

Lemma entity_extraction_retry_witness :
  create_chat_model second_try_world = Ok second_try_model /\
  snd (invoke_recipe_chain second_try_world [doc_a]) = 2%nat /\
  generate_answer_with_agent second_try_world [doc_a] = Some curry.
Proof.
  split; [reflexivity | ].
  exact (proj1 (proj2 (proj2 (entity_extraction_retry second_try_world [doc_a])))
           second_try_model eq_refl).
Defined.

(** ** Runs of the graph *)

Lemma inner_nodes_leave_final_result :
  forall (w : World) (state : WorkflowState),
    writes_final_result (_validate_recipe_pdf_node w state) = false /\
    writes_final_result (_download_extract_pdf_node w state) = false /\
    writes_final_result (_split_chunks_node w state) = false /\
    writes_final_result (_create_embeddings_node w state) = false /\
    writes_final_result (_find_relevant_chunks_node w state) = false /\
    writes_final_result (_extract_recipe_entity_node w state) = false /\
    writes_final_result (_extract_cooking_time_node w state) = false.
Proof.
  intros w state.
  repeat split.
  - destruct (validate_sets_validation_result w state) as [v ->]; reflexivity.
  - unfold _download_extract_pdf_node.
    destruct (download_pdf_sync w (pdf_url state)) as [pdf_bytes | e]; cbn;
      [ | reflexivity].
    destruct (parse_document w pdf_bytes); reflexivity.
  - unfold _split_chunks_node.
    destruct (pdf_content state) as [content | ]; cbn; [ | reflexivity].
    destruct (parse_document w (pdf_bytes content)) as [document | e]; cbn;
      [ | reflexivity].
    destruct (split_document w document); reflexivity.
  - unfold _create_embeddings_node, try_except, bind, attr_of.
    destruct (document_chunks state); reflexivity.
  - unfold _find_relevant_chunks_node, try_except, bind, attr_of.
    destruct (embedded_chunks state); reflexivity.
  - unfold _extract_recipe_entity_node.
    destruct (recipe_relevant_segments state) as [[ | segment rest] | ];
      reflexivity.
  - unfold _extract_cooking_time_node, try_except, bind, attr_of.
    destruct (embedded_chunks state); [ | reflexivity].
    destruct (perform_rag_search w _ _ _); reflexivity.
Qed.

(** The run after a rejection: one node, then [END]. *)
Lemma run_from_not_recipe_finish :
  forall (w : World) (limit : nat) (state : WorkflowState),
    run_from (create_langgraph_workflow w) (S limit) "not_recipe_finish" state
    = Some (spread state (_not_recipe_finish_node state),
            [("not_recipe_finish", _not_recipe_finish_node state)]).
Proof.
  intros w limit state; destruct limit; reflexivity.
Qed.

Lemma run_from_download_extract_pdf :
  forall (w : World) (limit : nat) (state : WorkflowState),
    run_from (create_langgraph_workflow w) (7 + limit) "download_extract_pdf" state
    = Some (extraction_log w state).
Proof.
  intros w limit state; destruct limit; reflexivity.
Qed.

Lemma run_from_validate_recipe_pdf :
  forall (w : World) (limit : nat) (state : WorkflowState),
    let a := _validate_recipe_pdf_node w state in
    let state' := spread state a in
    run_from (create_langgraph_workflow w) (S limit) "validate_recipe_pdf" state
    = match
        (if String.eqb (_should_continue_processing state') "continue"
         then run_from (create_langgraph_workflow w) limit "download_extract_pdf" state'
         else run_from (create_langgraph_workflow w) limit "not_recipe_finish" state')
      with
      | Some (final_state, log) =>
          Some (final_state, ("validate_recipe_pdf", a) :: log)
      | None => None
      end.
Proof.
  intros w limit state a state'.
  cbn [run_from String.eqb Ascii.eqb Bool.eqb END].
  cbn [create_langgraph_workflow nodes lookup String.eqb Ascii.eqb Bool.eqb].
  fold (create_langgraph_workflow w); fold a; fold state'.
  unfold next_node.
  cbn [create_langgraph_workflow conditional_edges lookup String.eqb Ascii.eqb Bool.eqb].
  fold (create_langgraph_workflow w).
  destruct (validate_sets_validation_result w state) as [v Hv].
  assert (Hlabel : _should_continue_processing state'
                   = if is_recipe v then "continue" else "stop").
  { unfold _should_continue_processing; subst state' a; rewrite Hv; reflexivity. }
  rewrite Hlabel; destruct (is_recipe v); reflexivity.
Qed.

(** C9: every run of the graph, from any state and with any behaviour of
    the collaborators, completes; its log contains exactly one execution of
    a terminal node ([create_final_result] or [not_recipe_finish]) and
    exactly one assignment of [final_result]; a node assigns [final_result]
    if and only if it is a terminal node; the terminal node runs last, and
    the value it assigned is the [final_result] of the final state. *)
Theorem exactly_one_terminal_node :
  forall (w : World) (initial : WorkflowState),
    exists final log,
      invoke (create_langgraph_workflow w) initial = Some (final, log) /\
      terminal_runs log = 1%nat /\
      final_result_writes log = 1%nat /\
      Forall (fun ev => writes_final_result (snd ev) = is_terminal (fst ev)) log /\
      exists before node r,
        log = (before ++ [(node, set_final_result r)])%list /\
        is_terminal node = true /\
        final_result final = Some r.
Proof.
  intros w initial.
  unfold invoke, recursion_limit.
  change (entry_point (create_langgraph_workflow w)) with "validate_recipe_pdf".
  rewrite run_from_validate_recipe_pdf; cbn zeta.
  pose proof (inner_nodes_leave_final_result w initial) as (Hvalidate & _).
  set (a0 := _validate_recipe_pdf_node w initial) in *.
  set (s0 := spread initial a0).
  destruct (String.eqb (_should_continue_processing s0) "continue").
  - pose proof (run_from_download_extract_pdf w 17 s0) as Hrun.
    change (7 + 17)%nat with 24%nat in Hrun; rewrite Hrun; clear Hrun.
    unfold extraction_log; cbn zeta.
    set (a1 := _download_extract_pdf_node w s0).
    set (s1 := spread s0 a1).
    set (a2 := _split_chunks_node w s1).
    set (s2 := spread s1 a2).
    set (a3 := _create_embeddings_node w s2).
    set (s3 := spread s2 a3).
    set (a4 := _find_relevant_chunks_node w s3).
    set (s4 := spread s3 a4).
    set (a5 := _extract_recipe_entity_node w s4).
    set (s5 := spread s4 a5).
    set (a6 := _extract_cooking_time_node w s5).
    set (s6 := spread s5 a6).
    pose proof (inner_nodes_leave_final_result w s0) as (_ & H1 & _).
    pose proof (inner_nodes_leave_final_result w s1) as (_ & _ & H2 & _).
    pose proof (inner_nodes_leave_final_result w s2) as (_ & _ & _ & H3 & _).
    pose proof (inner_nodes_leave_final_result w s3) as (_ & _ & _ & _ & H4 & _).
    pose proof (inner_nodes_leave_final_result w s4)
      as (_ & _ & _ & _ & _ & H5 & _).
    pose proof (inner_nodes_leave_final_result w s5)
      as (_ & _ & _ & _ & _ & _ & H6).
    fold a1 in H1; fold a2 in H2; fold a3 in H3; fold a4 in H4;
      fold a5 in H5; fold a6 in H6.
    eexists; eexists; split; [reflexivity | ].
    split; [reflexivity | ].
    split.
    { unfold final_result_writes; cbn [filter snd].
      rewrite Hvalidate, H1, H2, H3, H4, H5, H6; reflexivity. }
    split.
    { repeat constructor; cbn [fst snd]; try assumption. }
    exists [ ("validate_recipe_pdf", a0); ("download_extract_pdf", a1);
             ("split_chunks", a2); ("create_embeddings", a3);
             ("find_relevant_chunks", a4); ("extract_recipe_entity", a5);
             ("extract_cooking_time", a6) ],
      "create_final_result",
      (RecipeExtractionResult.mk (extracted_recipe s6) (total_cooking_minutes s6)).
    repeat split.
  - rewrite (run_from_not_recipe_finish w 23 s0).
    eexists; eexists; split; [reflexivity | ].
    split; [reflexivity | ].
    split.
    { unfold final_result_writes; cbn [filter snd].
      rewrite Hvalidate; reflexivity. }
    split.
    { repeat constructor; cbn [fst snd]; assumption. }
    exists [("validate_recipe_pdf", a0)], "not_recipe_finish",
      (RecipeExtractionResult.mk None None).
    repeat split.
Qed.

(** * Further properties of the workflow *)

(** ** What a node writes *)

Lemma spread_validation_result :
  forall (state : WorkflowState) (a : Assignment),
    key_of a <> "validation_result" ->
    validation_result (spread state a) = validation_result state.
Proof. intros state [] H; cbn; try reflexivity; exfalso; apply H; reflexivity. Qed.

(** X1: Which key a node writes.  The validate node, the two extraction nodes
    and the two terminal nodes always write their own key, also when they
    fail, so they never record an error.  The download, split, embed and
    retrieval nodes write the key ["error"] exactly when their [try] block
    raises (the download or the parser raises; [pdf_content] is absent or
    the parser or the splitter raises; [document_chunks] is absent;
    [embedded_chunks] is absent) and their own key exactly when it does
    not. *)
Theorem nodes_write_their_own_key :
  forall (w : World) (state : WorkflowState),
    key_of (_validate_recipe_pdf_node w state) = "validation_result" /\
    key_of (_not_recipe_finish_node state) = "final_result" /\
    key_of (_extract_recipe_entity_node w state) = "extracted_recipe" /\
    key_of (_extract_cooking_time_node w state) = "total_cooking_minutes" /\
    key_of (_create_final_result_node state) = "final_result" /\
    (key_of (_download_extract_pdf_node w state) = "pdf_content" <->
     exists pdf_bytes document,
       download_pdf_sync w (pdf_url state) = Ok pdf_bytes /\
       parse_document w pdf_bytes = Ok document) /\
    (key_of (_download_extract_pdf_node w state) = "error" <->
     (exists e, download_pdf_sync w (pdf_url state) = Raise e) \/
     (exists pdf_bytes e,
        download_pdf_sync w (pdf_url state) = Ok pdf_bytes /\
        parse_document w pdf_bytes = Raise e)) /\
    (key_of (_split_chunks_node w state) = "document_chunks" <->
     exists content document segments,
       pdf_content state = Some content /\
       parse_document w (pdf_bytes content) = Ok document /\
       split_document w document = Ok segments) /\
    (key_of (_split_chunks_node w state) = "error" <->
     pdf_content state = None \/
     (exists content e,
        pdf_content state = Some content /\
        parse_document w (pdf_bytes content) = Raise e) \/
     (exists content document e,
        pdf_content state = Some content /\
        parse_document w (pdf_bytes content) = Ok document /\
        split_document w document = Raise e)) /\
    (key_of (_create_embeddings_node w state) = "embedded_chunks" <->
     document_chunks state <> None) /\
    (key_of (_create_embeddings_node w state) = "error" <->
     document_chunks state = None) /\
    (key_of (_find_relevant_chunks_node w state) = "recipe_relevant_segments" <->
     embedded_chunks state <> None) /\
    (key_of (_find_relevant_chunks_node w state) = "error" <->
     embedded_chunks state = None).
Proof.
  intros w state.
  split; [destruct (validate_sets_validation_result w state) as [v ->];
          reflexivity | ].
  split; [reflexivity | ].
  split.
  { unfold _extract_recipe_entity_node.
    destruct (recipe_relevant_segments state) as [[ | segment rest] | ];
      reflexivity. }
  split.
  { unfold _extract_cooking_time_node.
    destruct (embedded_chunks state); cbn; [ | reflexivity].
    destruct (perform_rag_search w _ _ _); reflexivity. }
  split; [reflexivity | ].
  split; [ | split].
  { unfold _download_extract_pdf_node.
    destruct (download_pdf_sync w (pdf_url state)) as [pdf_bytes | e]; cbn.
    - destruct (parse_document w pdf_bytes) as [document | e] eqn:Hparse; cbn.
      + split; [intros _; exists pdf_bytes, document; split; [reflexivity | exact Hparse]
               | reflexivity].
      + split; [discriminate | ].
        intros (b & d & Hb & Hd); inversion Hb; subst b; congruence.
    - split; [discriminate | intros (b & d & Hb & _); discriminate Hb]. }
  { unfold _download_extract_pdf_node.
    destruct (download_pdf_sync w (pdf_url state)) as [pdf_bytes | e]; cbn.
    - destruct (parse_document w pdf_bytes) as [document | e] eqn:Hparse; cbn.
      + split; [discriminate | ].
        intros [(e & He) | (b & e & Hb & He)]; [discriminate He | ].
        inversion Hb; subst b; congruence.
      + split; [ | reflexivity].
        intros _; right; exists pdf_bytes, e; split; [reflexivity | exact Hparse].
    - split; [intros _; left; exists e; reflexivity | reflexivity]. }
  split; [ | split].
  { unfold _split_chunks_node.
    destruct (pdf_content state) as [content | ]; cbn.
    - destruct (parse_document w (pdf_bytes content)) as [document | e] eqn:Hparse;
        cbn.
      + destruct (split_document w document) as [segments | e] eqn:Hsplit; cbn.
        * split; [ | reflexivity].
          intros _; exists content, document, segments.
          split; [reflexivity | split; assumption].
        * split; [discriminate | ].
          intros (c & d & sg & Hc & Hd & Hs); inversion Hc; subst c.
          rewrite Hparse in Hd; inversion Hd; subst d; congruence.
      + split; [discriminate | ].
        intros (c & d & sg & Hc & Hd & _); inversion Hc; subst c; congruence.
    - split; [discriminate | intros (c & d & sg & Hc & _); discriminate Hc]. }
  { unfold _split_chunks_node.
    destruct (pdf_content state) as [content | ]; cbn.
    - destruct (parse_document w (pdf_bytes content)) as [document | e] eqn:Hparse;
        cbn.
      + destruct (split_document w document) as [segments | e] eqn:Hsplit; cbn.
        * split; [discriminate | ].
          intros [Hnone | [(c & e & Hc & He) | (c & d & e & Hc & Hd & He)]];
            [discriminate Hnone | inversion Hc; subst c; congruence | ].
          inversion Hc; subst c.
          rewrite Hparse in Hd; inversion Hd; subst d; congruence.
        * split; [ | reflexivity].
          intros _; right; right; exists content, document, e.
          split; [reflexivity | split; assumption].
      + split; [ | reflexivity].
        intros _; right; left; exists content, e; split; [reflexivity | exact Hparse].
    - split; [intros _; left; reflexivity | reflexivity]. }
  split; [ | split; [ | split]].
  - unfold _create_embeddings_node.
    destruct (document_chunks state); cbn;
      (split; [intros; congruence | intros H; congruence || reflexivity]).
  - unfold _create_embeddings_node.
    destruct (document_chunks state); cbn; (split; congruence || reflexivity).
  - unfold _find_relevant_chunks_node.
    destruct (embedded_chunks state); cbn;
      (split; [intros; congruence | intros H; congruence || reflexivity]).
  - unfold _find_relevant_chunks_node.
    destruct (embedded_chunks state); cbn; (split; congruence || reflexivity).
Qed.


Lemma later_nodes_keep_validation_result :
  forall (w : World) (state : WorkflowState),
    validation_result (spread state (_download_extract_pdf_node w state))
      = validation_result state /\
    validation_result (spread state (_split_chunks_node w state))
      = validation_result state /\
    validation_result (spread state (_create_embeddings_node w state))
      = validation_result state /\
    validation_result (spread state (_find_relevant_chunks_node w state))
      = validation_result state /\
    validation_result (spread state (_extract_recipe_entity_node w state))
      = validation_result state /\
    validation_result (spread state (_extract_cooking_time_node w state))
      = validation_result state.
Proof.
  intros w state.
  repeat split; apply spread_validation_result.
  - unfold _download_extract_pdf_node.
    destruct (download_pdf_sync w (pdf_url state)) as [pdf_bytes | e]; cbn;
      [ | discriminate].
    destruct (parse_document w pdf_bytes); discriminate.
  - unfold _split_chunks_node.
    destruct (pdf_content state) as [content | ]; cbn; [ | discriminate].
    destruct (parse_document w (pdf_bytes content)) as [document | e]; cbn;
      [ | discriminate].
    destruct (split_document w document); discriminate.
  - unfold _create_embeddings_node.
    destruct (document_chunks state); discriminate.
  - unfold _find_relevant_chunks_node.
    destruct (embedded_chunks state); discriminate.
  - unfold _extract_recipe_entity_node.
    destruct (recipe_relevant_segments state) as [[ | segment rest] | ];
      discriminate.
  - unfold _extract_cooking_time_node.
    destruct (embedded_chunks state); cbn; [ | discriminate].
    destruct (perform_rag_search w _ _ _); discriminate.
Qed.

Lemma extraction_log_summary :
  forall (w : World) (state : WorkflowState),
    validation_result (fst (extraction_log w state)) = validation_result state /\
    map fst (snd (extraction_log w state)) = tl extraction_path /\
    final_result (fst (extraction_log w state))
    = Some (RecipeExtractionResult.mk
              (extracted_recipe (fst (extraction_log w state)))
              (total_cooking_minutes (fst (extraction_log w state)))).
Proof.
  intros w state; unfold extraction_log; cbn zeta; cbn [fst snd].
  split; [ | split; reflexivity].
  cbn [spread _create_final_result_node validation_result].
  pose proof (later_nodes_keep_validation_result w) as Hkeep.
  rewrite (proj2 (proj2 (proj2 (proj2 (proj2 (Hkeep _)))))).
  rewrite (proj1 (proj2 (proj2 (proj2 (proj2 (Hkeep _)))))).
  rewrite (proj1 (proj2 (proj2 (proj2 (Hkeep _))))).
  rewrite (proj1 (proj2 (proj2 (Hkeep _)))).
  rewrite (proj1 (proj2 (Hkeep _))).
  rewrite (proj1 (Hkeep _)).
  reflexivity.
Qed.

(** ** The path of a run and its result *)

(** X3: Every run from the entry point follows one of two fixed sequences of
    nodes, and the choice is made by the validation result that the validate
    node stored: the eight nodes of the extraction path when [is_recipe] is
    true, validate followed by [not_recipe_finish] when it is false.  The
    validation result is still in the final state. *)
Theorem run_follows_validation :
  forall (w : World) (initial : WorkflowState),
    exists final log v,
      invoke (create_langgraph_workflow w) initial = Some (final, log) /\
      validation_result final = Some v /\
      map fst log = (if is_recipe v then extraction_path else rejection_path).
Proof.
  intros w initial.
  unfold invoke, recursion_limit.
  change (entry_point (create_langgraph_workflow w)) with "validate_recipe_pdf".
  rewrite run_from_validate_recipe_pdf; cbn zeta.
  destruct (validate_sets_validation_result w initial) as [v Hv].
  rewrite Hv.
  set (s0 := spread initial (set_validation_result v)).
  assert (Hs0 : validation_result s0 = Some v) by reflexivity.
  assert (Hlabel : _should_continue_processing s0
                   = if is_recipe v then "continue" else "stop")
    by (unfold _should_continue_processing; rewrite Hs0; reflexivity).
  rewrite Hlabel.
  destruct (is_recipe v) eqn:Hrecipe; cbn [String.eqb Ascii.eqb Bool.eqb].
  - pose proof (run_from_download_extract_pdf w 17 s0) as Hrun.
    change (7 + 17)%nat with 24%nat in Hrun; rewrite Hrun; clear Hrun.
    destruct (extraction_log_summary w s0) as (Hvalid & Hpath & _).
    destruct (extraction_log w s0) as [final log]; cbn [fst snd] in *.
    exists final, (("validate_recipe_pdf", set_validation_result v) :: log), v.
    split; [reflexivity | split; [congruence | ]].
    rewrite Hrecipe; cbn [map fst]; rewrite Hpath; reflexivity.
  - rewrite (run_from_not_recipe_finish w 23 s0).
    eexists; eexists; exists v.
    split; [reflexivity | split; [reflexivity | ]].
    rewrite Hrecipe; reflexivity.
Qed.

(** X4: [execute_langgraph_workflow] always returns a result, never [None]: the
    engine never fails on this graph.  The result is the [final_result] of
    the final state and it agrees with the final state's own
    [extracted_recipe] and [total_cooking_minutes], on both paths. *)
Theorem execute_returns_the_state_fields :
  forall (w : World) (url : string),
    exists final log r,
      invoke (create_langgraph_workflow w) (initial_state url)
        = Some (final, log) /\
      execute_langgraph_workflow w url = Some r /\
      final_result final = Some r /\
      r = RecipeExtractionResult.mk (extracted_recipe final)
            (total_cooking_minutes final).
Proof.
  intros w url.
  unfold execute_langgraph_workflow, invoke, recursion_limit.
  change (entry_point (create_langgraph_workflow w)) with "validate_recipe_pdf".
  rewrite run_from_validate_recipe_pdf; cbn zeta.
  destruct (validate_sets_validation_result w (initial_state url)) as [v Hv].
  rewrite Hv.
  set (s0 := spread (initial_state url) (set_validation_result v)).
  destruct (String.eqb (_should_continue_processing s0) "continue").
  - pose proof (run_from_download_extract_pdf w 17 s0) as Hrun.
    change (7 + 17)%nat with 24%nat in Hrun; rewrite Hrun; clear Hrun.
    destruct (extraction_log_summary w s0) as (_ & _ & Hfinal).
    destruct (extraction_log w s0) as [final log]; cbn [fst snd] in *.
    eexists; eexists; eexists.
    split; [reflexivity | split; [exact Hfinal | split; [exact Hfinal | ]]].
    reflexivity.
  - rewrite (run_from_not_recipe_finish w 23 s0).
    eexists; eexists; eexists.
    split; [reflexivity | split; [reflexivity | split; reflexivity]].
Qed.

(** ** The error recorded by a run *)

Lemma download_node_cases :
  forall (w : World) (state : WorkflowState),
    (exists v, _download_extract_pdf_node w state = set_pdf_content v) \/
    (exists m, _download_extract_pdf_node w state = set_error m).
Proof.
  intros w state; unfold _download_extract_pdf_node.
  destruct (download_pdf_sync w (pdf_url state)) as [pdf_bytes | e]; cbn;
    [ | right; eexists; reflexivity].
  destruct (parse_document w pdf_bytes); cbn;
    [left | right]; eexists; reflexivity.
Qed.

Lemma split_node_cases :
  forall (w : World) (state : WorkflowState),
    (exists v, pdf_content state <> None /\
               _split_chunks_node w state = set_document_chunks v) \/
    (exists m, _split_chunks_node w state = set_error m).
Proof.
  intros w state; unfold _split_chunks_node.
  destruct (pdf_content state) as [content | ]; cbn;
    [ | right; eexists; reflexivity].
  destruct (parse_document w (pdf_bytes content)) as [document | e]; cbn;
    [ | right; eexists; reflexivity].
  destruct (split_document w document); cbn;
    [left; eexists; split; [discriminate | reflexivity]
    | right; eexists; reflexivity].
Qed.

Lemma embed_node_cases :
  forall (w : World) (state : WorkflowState),
    (exists v, document_chunks state <> None /\
               _create_embeddings_node w state = set_embedded_chunks v) \/
    (exists m, _create_embeddings_node w state = set_error m).
Proof.
  intros w state; unfold _create_embeddings_node.
  destruct (document_chunks state); cbn;
    [left; eexists; split; [discriminate | reflexivity]
    | right; eexists; reflexivity].
Qed.

Lemma find_node_cases :
  forall (w : World) (state : WorkflowState),
    (exists v, embedded_chunks state <> None /\
               _find_relevant_chunks_node w state
               = set_recipe_relevant_segments v) \/
    (exists m, _find_relevant_chunks_node w state = set_error m).
Proof.
  intros w state; unfold _find_relevant_chunks_node.
  destruct (embedded_chunks state); cbn;
    [left; eexists; split; [discriminate | reflexivity]
    | right; eexists; reflexivity].
Qed.

Lemma extraction_nodes_write_their_field :
  forall (w : World) (state : WorkflowState),
    (exists v, _extract_recipe_entity_node w state = set_extracted_recipe v) /\
    (exists v, _extract_cooking_time_node w state = set_total_cooking_minutes v).
Proof.
  intros w state; split.
  - unfold _extract_recipe_entity_node.
    destruct (recipe_relevant_segments state) as [[ | segment rest] | ];
      eexists; reflexivity.
  - unfold _extract_cooking_time_node.
    destruct (embedded_chunks state); cbn; [ | eexists; reflexivity].
    destruct (perform_rag_search w _ _ _); eexists; reflexivity.
Qed.

Lemma extraction_log_error :
  forall (w : World) (state : WorkflowState),
    pdf_content state = None ->
    document_chunks state = None ->
    embedded_chunks state = None ->
    recipe_relevant_segments state = None ->
    error state = None ->
    (error (fst (extraction_log w state)) = None <->
     recipe_relevant_segments (fst (extraction_log w state)) <> None) /\
    (recipe_relevant_segments (fst (extraction_log w state)) <> None ->
     pdf_content (fst (extraction_log w state)) <> None /\
     document_chunks (fst (extraction_log w state)) <> None /\
     embedded_chunks (fst (extraction_log w state)) <> None) /\
    pdf_url (fst (extraction_log w state)) = pdf_url state.
Proof.
  intros w state Hpc Hdc Hec Hrs Herr.
  unfold extraction_log; cbn zeta; cbn [fst].
  destruct (download_node_cases w state) as [(v1 & H1) | (m1 & H1)]; rewrite H1.
  all: match goal with
       | |- context [_split_chunks_node ?w0 ?x] =>
           destruct (split_node_cases w0 x) as [(v2 & N2 & H2) | (m2 & H2)];
           rewrite H2
       end.
  all: match goal with
       | |- context [_create_embeddings_node ?w0 ?x] =>
           destruct (embed_node_cases w0 x) as [(v3 & N3 & H3) | (m3 & H3)];
           rewrite H3
       end.
  all: match goal with
       | |- context [_find_relevant_chunks_node ?w0 ?x] =>
           destruct (find_node_cases w0 x) as [(v4 & N4 & H4) | (m4 & H4)];
           rewrite H4
       end.
  all: match goal with
       | |- context [_extract_recipe_entity_node ?w0 ?x] =>
           destruct (proj1 (extraction_nodes_write_their_field w0 x))
             as (v5 & H5);
           rewrite H5
       end.
  all: match goal with
       | |- context [_extract_cooking_time_node ?w0 ?x] =>
           destruct (proj2 (extraction_nodes_write_their_field w0 x))
             as (v6 & H6);
           rewrite H6
       end.
  all: cbn [spread pdf_url validation_result pdf_content document_chunks
            embedded_chunks recipe_relevant_segments extracted_recipe
            total_cooking_minutes final_result error
            _create_final_result_node] in *.
  all: rewrite ?Hpc, ?Hdc, ?Hec, ?Hrs, ?Herr in *.
  all: repeat split; intros; try discriminate; try congruence; try reflexivity.
Qed.

(** X2: The [error] left by a run of the workflow tells whether the
    preparation of the document succeeded, and nothing else.  On the
    extraction path [error] is absent from the final state exactly when
    [recipe_relevant_segments] is present, and then [pdf_content],
    [document_chunks] and [embedded_chunks] are present too; a failure of
    the entity or of the time extraction never shows in it.  After a
    rejection no error is recorded and these fields are all absent.  The
    run never changes [pdf_url]. *)
Theorem error_reflects_the_preparation :
  forall (w : World) (url : string),
    exists final log v,
      invoke (create_langgraph_workflow w) (initial_state url)
        = Some (final, log) /\
      validation_result final = Some v /\
      pdf_url final = url /\
      if is_recipe v
      then
        (error final = None <-> recipe_relevant_segments final <> None) /\
        (recipe_relevant_segments final <> None ->
         pdf_content final <> None /\ document_chunks final <> None /\
         embedded_chunks final <> None)
      else
        error final = None /\ pdf_content final = None /\
        document_chunks final = None /\ embedded_chunks final = None /\
        recipe_relevant_segments final = None.
Proof.
  intros w url.
  unfold invoke, recursion_limit.
  change (entry_point (create_langgraph_workflow w)) with "validate_recipe_pdf".
  rewrite run_from_validate_recipe_pdf; cbn zeta.
  destruct (validate_sets_validation_result w (initial_state url)) as [v Hv].
  rewrite Hv.
  set (s0 := spread (initial_state url) (set_validation_result v)).
  assert (Hlabel : _should_continue_processing s0
                   = if is_recipe v then "continue" else "stop")
    by reflexivity.
  rewrite Hlabel.
  destruct (is_recipe v) eqn:Hrecipe; cbn [String.eqb Ascii.eqb Bool.eqb].
  - pose proof (run_from_download_extract_pdf w 17 s0) as Hrun.
    change (7 + 17)%nat with 24%nat in Hrun; rewrite Hrun; clear Hrun.
    destruct (extraction_log_summary w s0) as (Hvalid & _ & _).
    destruct (extraction_log_error w s0 eq_refl eq_refl eq_refl eq_refl eq_refl)
      as (Herror & Hfields & Hurl).
    destruct (extraction_log w s0) as [final log]; cbn [fst snd] in *.
    exists final, (("validate_recipe_pdf", set_validation_result v) :: log), v.
    split; [reflexivity | split; [exact Hvalid | split; [exact Hurl | ]]].
    rewrite Hrecipe; split; [exact Herror | exact Hfields].
  - rewrite (run_from_not_recipe_finish w 23 s0).
    eexists; eexists; exists v.
    split; [reflexivity | split; [reflexivity | split; [reflexivity | ]]].
    rewrite Hrecipe; repeat split.
Qed.

Lemma download_node_failure :
  forall (w : World) (state : WorkflowState) (e : exn),
    download_pdf_sync w (pdf_url state) = Raise e ->
    _download_extract_pdf_node w state = set_error (str e).
Proof.
  intros w state e H; unfold _download_extract_pdf_node; rewrite H; reflexivity.
Qed.

Lemma split_node_without_content :
  forall (w : World) (state : WorkflowState),
    pdf_content state = None ->
    _split_chunks_node w state
    = set_error "'NoneType' object has no attribute 'pdf_bytes'".
Proof.
  intros w state H; unfold _split_chunks_node; rewrite H; reflexivity.
Qed.

Lemma embed_node_without_chunks :
  forall (w : World) (state : WorkflowState),
    document_chunks state = None ->
    _create_embeddings_node w state
    = set_error "'NoneType' object has no attribute 'text_segments'".
Proof.
  intros w state H; unfold _create_embeddings_node; rewrite H; reflexivity.
Qed.

Lemma find_node_without_chunks :
  forall (w : World) (state : WorkflowState),
    embedded_chunks state = None ->
    _find_relevant_chunks_node w state
    = set_error "'NoneType' object has no attribute 'text_segments'".
Proof.
  intros w state H; unfold _find_relevant_chunks_node; rewrite H; reflexivity.
Qed.

Lemma entity_node_without_segments :
  forall (w : World) (state : WorkflowState),
    recipe_relevant_segments state = None ->
    _extract_recipe_entity_node w state = set_extracted_recipe None.
Proof.
  intros w state H; unfold _extract_recipe_entity_node; rewrite H; reflexivity.
Qed.

Lemma time_node_without_chunks :
  forall (w : World) (state : WorkflowState),
    embedded_chunks state = None ->
    _extract_cooking_time_node w state = set_total_cooking_minutes None.
Proof.
  intros w state H; unfold _extract_cooking_time_node; rewrite H; reflexivity.
Qed.

(** X5: When the PDF cannot be downloaded, the run still takes the extraction
    path (the validate node falls back to "is a recipe") and ends with an
    empty result.  Every node after the download finds its input absent; the
    [error] left in the final state is the complaint of the last node that
    recorded one, the retrieval node, not the download error that caused
    it. *)
Theorem unreachable_pdf_gives_empty_result :
  forall (w : World) (url : string) (e : exn),
    download_pdf_sync w url = Raise e ->
    exists log,
      invoke (create_langgraph_workflow w) (initial_state url)
      = Some (mkWorkflowState url (Some fallback_validation_result)
                None None None None None None
                (Some (RecipeExtractionResult.mk None None))
                (Some "'NoneType' object has no attribute 'text_segments'"),
              log) /\
      map fst log = extraction_path /\
      In ("download_extract_pdf", set_error (str e)) log /\
      execute_langgraph_workflow w url
      = Some (RecipeExtractionResult.mk None None).
Proof.
  intros w url e Hdownload.
  assert (Hvalidate : _validate_recipe_pdf_node w (initial_state url)
                      = set_validation_result fallback_validation_result).
  { unfold _validate_recipe_pdf_node; cbn [pdf_url initial_state].
    rewrite Hdownload; reflexivity. }
  assert (Hrun : invoke (create_langgraph_workflow w) (initial_state url)
            = Some (mkWorkflowState url (Some fallback_validation_result)
                      None None None None None None
                      (Some (RecipeExtractionResult.mk None None))
                      (Some "'NoneType' object has no attribute 'text_segments'"),
                    [ ("validate_recipe_pdf",
                       set_validation_result fallback_validation_result);
                      ("download_extract_pdf", set_error (str e));
                      ("split_chunks",
                       set_error "'NoneType' object has no attribute 'pdf_bytes'");
                      ("create_embeddings",
                       set_error "'NoneType' object has no attribute 'text_segments'");
                      ("find_relevant_chunks",
                       set_error "'NoneType' object has no attribute 'text_segments'");
                      ("extract_recipe_entity", set_extracted_recipe None);
                      ("extract_cooking_time", set_total_cooking_minutes None);
                      ("create_final_result",
                       set_final_result (RecipeExtractionResult.mk None None)) ])).
  { unfold invoke, recursion_limit.
    change (entry_point (create_langgraph_workflow w)) with "validate_recipe_pdf".
    rewrite run_from_validate_recipe_pdf; cbn zeta.
    rewrite Hvalidate.
    change (_should_continue_processing
              (spread (initial_state url)
                 (set_validation_result fallback_validation_result)))
      with "continue".
    cbn [String.eqb Ascii.eqb Bool.eqb].
    pose proof (run_from_download_extract_pdf w 17
                  (spread (initial_state url)
                     (set_validation_result fallback_validation_result))) as H.
    change (7 + 17)%nat with 24%nat in H; rewrite H; clear H.
    unfold extraction_log; cbn zeta.
    rewrite (download_node_failure w _ e) by exact Hdownload.
    cbn [spread pdf_url validation_result pdf_content document_chunks
         embedded_chunks recipe_relevant_segments extracted_recipe
         total_cooking_minutes final_result error initial_state].
    rewrite split_node_without_content by reflexivity.
    cbn [spread pdf_url validation_result pdf_content document_chunks
         embedded_chunks recipe_relevant_segments extracted_recipe
         total_cooking_minutes final_result error].
    rewrite embed_node_without_chunks by reflexivity.
    cbn [spread pdf_url validation_result pdf_content document_chunks
         embedded_chunks recipe_relevant_segments extracted_recipe
         total_cooking_minutes final_result error].
    rewrite find_node_without_chunks by reflexivity.
    cbn [spread pdf_url validation_result pdf_content document_chunks
         embedded_chunks recipe_relevant_segments extracted_recipe
         total_cooking_minutes final_result error].
    rewrite entity_node_without_segments by reflexivity.
    cbn [spread pdf_url validation_result pdf_content document_chunks
         embedded_chunks recipe_relevant_segments extracted_recipe
         total_cooking_minutes final_result error].
    rewrite time_node_without_chunks by reflexivity.
    reflexivity. }
  eexists; split; [exact Hrun | ].
  unfold execute_langgraph_workflow; rewrite Hrun.
  split; [reflexivity | split; [ | reflexivity]].
  right; left; reflexivity.
Qed.

Lemma unreachable_pdf_gives_empty_result_witness :
  download_pdf_sync offline_world "https://example.org/recipe.pdf"
    = Raise unreachable /\
  execute_langgraph_workflow offline_world "https://example.org/recipe.pdf"
    = Some (RecipeExtractionResult.mk None None).
Proof.
  split; [reflexivity | ].
  destruct (unreachable_pdf_gives_empty_result offline_world
              "https://example.org/recipe.pdf" unreachable eq_refl)
    as (log & _ & _ & _ & H).
  exact H.
Defined.

(** ** A run in which every collaborator answers *)

Lemma rag_search_success :
  forall (w : World) (documents : list Document) (query : string)
         (max_results : Z) (m : OpenAIEmbeddings) (store : Chroma)
         (found : list Document),
    create_embedding_model w = Ok m ->
    Chroma_from_documents w documents m = Ok store ->
    similarity_search store query max_results = Ok found ->
    delete_collection store = Ok tt ->
    perform_rag_search w documents query max_results = found.
Proof.
  intros w documents query max_results m store found Hm Hs Hf Hd.
  unfold perform_rag_search, chroma_search.
  rewrite Hm; cbn [bind]; rewrite Hs; cbn [bind]; rewrite Hf; cbn [bind].
  rewrite Hd; reflexivity.
Qed.

Lemma validate_node_success :
  forall (w : World) (state : WorkflowState) (bytes : string)
         (m : ChatOpenAI) (v : PdfValidationResult),
    download_pdf_sync w (pdf_url state) = Ok bytes ->
    create_chat_model w = Ok m ->
    validation_chain m
      (or_else (last_component (pdf_url state) EmptyString) "recipe.pdf")
      (b64encode w bytes) = Ok v ->
    _validate_recipe_pdf_node w state = set_validation_result v.
Proof.
  intros w state bytes m v Hd Hm Hv; unfold _validate_recipe_pdf_node.
  rewrite Hd; cbn [bind]; rewrite Hm; cbn [bind]; rewrite Hv; reflexivity.
Qed.

Lemma download_node_success :
  forall (w : World) (state : WorkflowState) (bytes : string) (doc : Document),
    download_pdf_sync w (pdf_url state) = Ok bytes ->
    parse_document w bytes = Ok doc ->
    _download_extract_pdf_node w state
    = set_pdf_content (mkPdfContent bytes (page_content doc)).
Proof.
  intros w state bytes doc Hd Hp; unfold _download_extract_pdf_node.
  rewrite Hd; cbn [bind]; rewrite Hp; reflexivity.
Qed.

Lemma split_node_success :
  forall (w : World) (state : WorkflowState) (content : PdfContent)
         (doc : Document) (segments : list Document),
    pdf_content state = Some content ->
    parse_document w (pdf_bytes content) = Ok doc ->
    split_document w doc = Ok segments ->
    _split_chunks_node w state
    = set_document_chunks (DocumentChunks.mk (extracted_text content) segments).
Proof.
  intros w state content doc segments Hc Hp Hs; unfold _split_chunks_node.
  rewrite Hc; cbn [attr_of bind]; rewrite Hp; cbn [bind]; rewrite Hs.
  reflexivity.
Qed.

Lemma embed_node_with_chunks :
  forall (w : World) (state : WorkflowState) (chunks : DocumentChunks.t),
    document_chunks state = Some chunks ->
    _create_embeddings_node w state
    = set_embedded_chunks
        (EmbeddedChunks.mk (DocumentChunks.text_segments chunks)
           (create_openai_embeddings w
              (map page_content (DocumentChunks.text_segments chunks)))).
Proof.
  intros w state chunks H; unfold _create_embeddings_node; rewrite H.
  reflexivity.
Qed.

Lemma find_node_with_chunks :
  forall (w : World) (state : WorkflowState) (embedded : EmbeddedChunks.t),
    embedded_chunks state = Some embedded ->
    _find_relevant_chunks_node w state
    = set_recipe_relevant_segments
        (perform_rag_search w (EmbeddedChunks.text_segments embedded)
           recipe_query 5).
Proof.
  intros w state embedded H; unfold _find_relevant_chunks_node; rewrite H.
  reflexivity.
Qed.

Lemma entity_node_with_segments :
  forall (w : World) (state : WorkflowState) (segments : list Document),
    recipe_relevant_segments state = Some segments ->
    segments <> [] ->
    _extract_recipe_entity_node w state
    = set_extracted_recipe (generate_answer_with_agent w segments).
Proof.
  intros w state segments H Hne; unfold _extract_recipe_entity_node; rewrite H.
  destruct segments; [congruence | reflexivity].
Qed.

Lemma time_node_with_segments :
  forall (w : World) (state : WorkflowState) (embedded : EmbeddedChunks.t)
         (found : list Document),
    embedded_chunks state = Some embedded ->
    perform_rag_search w (EmbeddedChunks.text_segments embedded) time_query 3
      = found ->
    found <> [] ->
    _extract_cooking_time_node w state
    = set_total_cooking_minutes (extract_cooking_time_with_tools w found).
Proof.
  intros w state embedded found H Hfound Hne; unfold _extract_cooking_time_node.
  rewrite H; cbn [attr_of bind]; rewrite Hfound.
  destruct found; [congruence | reflexivity].
Qed.

Lemma first_answer_is_returned :
  forall (w : World) (segments : list Document) (m : ChatOpenAI)
         (recipe : RecipeEntity.t),
    create_chat_model w = Ok m ->
    recipe_chain m 1 (context_of segments) = Ok recipe ->
    generate_answer_with_agent w segments = Some recipe.
Proof.
  intros w segments m recipe Hm Hr.
  unfold generate_answer_with_agent, invoke_recipe_chain; cbn zeta.
  rewrite Hm; unfold with_retry; cbn [Nat.sub retry_loop]; rewrite Hr.
  reflexivity.
Qed.

Lemma recorded_total_is_returned :
  forall (w : World) (segments : list Document) (m : ChatOpenAI)
         (r : AgentResult) (total : Q),
    create_chat_model w = Ok m ->
    agent_executor m (agent_input (context_of segments)) = Ok r ->
    _extract_sum_minutes_from_agent_result r = Some total ->
    extract_cooking_time_with_tools w segments = Some total.
Proof.
  intros w segments m r total Hm Hr Ht.
  unfold extract_cooking_time_with_tools; cbn zeta.
  rewrite Hm; cbn [bind]; rewrite Hr; cbn [bind]; rewrite Ht; reflexivity.
Qed.

(** X6: When the download, the validation (accepting the document), the parser,
    the splitter, both similarity searches (each returning at least one
    segment), the first answer of the recipe chain and the agent (recording
    a [sum_minutes] call) all succeed, the workflow returns that recipe and
    the total read from the recorded call.  The outcome of the embed node
    plays no part. *)
Theorem successful_run_returns_recipe_and_total :
  forall (w : World) (url bytes : string) (m : ChatOpenAI)
         (v : PdfValidationResult) (doc : Document) (segments : list Document)
         (em : OpenAIEmbeddings) (store : Chroma)
         (found time_found : list Document) (recipe : RecipeEntity.t)
         (r : AgentResult) (total : Q),
    download_pdf_sync w url = Ok bytes ->
    create_chat_model w = Ok m ->
    validation_chain m (or_else (last_component url EmptyString) "recipe.pdf")
      (b64encode w bytes) = Ok v ->
    is_recipe v = true ->
    parse_document w bytes = Ok doc ->
    split_document w doc = Ok segments ->
    create_embedding_model w = Ok em ->
    Chroma_from_documents w segments em = Ok store ->
    delete_collection store = Ok tt ->
    similarity_search store recipe_query 5 = Ok found ->
    found <> [] ->
    similarity_search store time_query 3 = Ok time_found ->
    time_found <> [] ->
    recipe_chain m 1 (context_of found) = Ok recipe ->
    agent_executor m (agent_input (context_of time_found)) = Ok r ->
    _extract_sum_minutes_from_agent_result r = Some total ->
    execute_langgraph_workflow w url
    = Some (RecipeExtractionResult.mk (Some recipe) (Some total)).
Proof.
  intros w url bytes m v doc segments em store found time_found recipe r total
    Hdownload Hmodel Hvalid Hrecipe Hparse Hsplit Hem Hstore Hdelete
    Hfound Hfound_ne Htime Htime_ne Hchain Hagent Htotal.
  assert (Hsearch : perform_rag_search w segments recipe_query 5 = found)
    by (apply (rag_search_success w segments recipe_query 5 em store found);
        assumption).
  assert (Hsearch_time : perform_rag_search w segments time_query 3 = time_found)
    by (apply (rag_search_success w segments time_query 3 em store time_found);
        assumption).
  unfold execute_langgraph_workflow, invoke, recursion_limit.
  change (entry_point (create_langgraph_workflow w)) with "validate_recipe_pdf".
  rewrite run_from_validate_recipe_pdf; cbn zeta.
  rewrite (validate_node_success w (initial_state url) bytes m v)
    by assumption.
  assert (Hlabel : _should_continue_processing
                     (spread (initial_state url) (set_validation_result v))
                   = "continue")
    by (unfold _should_continue_processing; cbn [spread validation_result];
        rewrite Hrecipe; reflexivity).
  rewrite Hlabel; cbn [String.eqb Ascii.eqb Bool.eqb].
  pose proof (run_from_download_extract_pdf w 17
                (spread (initial_state url) (set_validation_result v))) as H.
  change (7 + 17)%nat with 24%nat in H; rewrite H; clear H.
  unfold extraction_log; cbn zeta.
  rewrite (download_node_success w _ bytes doc) by assumption.
  cbn [spread pdf_url validation_result pdf_content document_chunks
       embedded_chunks recipe_relevant_segments extracted_recipe
       total_cooking_minutes final_result error initial_state].
  rewrite (split_node_success w _ (mkPdfContent bytes (page_content doc))
             doc segments) by (reflexivity || assumption).
  cbn [spread pdf_url validation_result pdf_content document_chunks
       embedded_chunks recipe_relevant_segments extracted_recipe
       total_cooking_minutes final_result error extracted_text].
  rewrite (embed_node_with_chunks w _
             (DocumentChunks.mk (page_content doc) segments)) by reflexivity.
  cbn [spread pdf_url validation_result pdf_content document_chunks
       embedded_chunks recipe_relevant_segments extracted_recipe
       total_cooking_minutes final_result error DocumentChunks.text_segments].
  set (embedded := EmbeddedChunks.mk segments
                     (create_openai_embeddings w (map page_content segments))).
  rewrite (find_node_with_chunks w _ embedded) by reflexivity.
  cbn [EmbeddedChunks.text_segments embedded]; rewrite Hsearch.
  cbn [spread pdf_url validation_result pdf_content document_chunks
       embedded_chunks recipe_relevant_segments extracted_recipe
       total_cooking_minutes final_result error].
  rewrite (entity_node_with_segments w _ found) by (reflexivity || assumption).
  rewrite (first_answer_is_returned w found m recipe) by assumption.
  cbn [spread pdf_url validation_result pdf_content document_chunks
       embedded_chunks recipe_relevant_segments extracted_recipe
       total_cooking_minutes final_result error].
  rewrite (time_node_with_segments w _ embedded time_found)
    by (reflexivity || assumption).
  rewrite (recorded_total_is_returned w time_found m r total) by assumption.
  reflexivity.
Qed.

Lemma successful_run_returns_recipe_and_total_witness :
  download_pdf_sync helpful_world "https://example.org/recipe.pdf"
    = Ok "%PDF-1.4" /\
  execute_langgraph_workflow helpful_world "https://example.org/recipe.pdf"
    = Some (RecipeExtractionResult.mk (Some curry) (Some 30%Q)).
Proof.
  split; [reflexivity | ].
  apply (successful_run_returns_recipe_and_total helpful_world
           "https://example.org/recipe.pdf" "%PDF-1.4"
           (mkChatOpenAI (fun _ _ => Ok (mkPdfValidationResult true "recipe"))
              (fun _ _ => Ok curry)
              (fun _ =>
                 Ok (mkAgentResult "30"
                       (Some [(mkAgentAction (Some "sum_minutes")
                                 (Some [mkAIMessage ""
                                          (Some [ToolCall.mk "sum_minutes"
                                                   [10%Q; 15%Q; 5%Q]])]),
                               "30.0")]))))
           (mkPdfValidationResult true "recipe") (mkDocument "a")
           [mkDocument "a"] flaky_embeddings helpful_store
           [mkDocument "a"] [mkDocument "a"] curry
           (mkAgentResult "30"
              (Some [(mkAgentAction (Some "sum_minutes")
                        (Some [mkAIMessage ""
                                 (Some [ToolCall.mk "sum_minutes"
                                          [10%Q; 15%Q; 5%Q]])]),
                      "30.0")]))
           30%Q);
    try reflexivity; discriminate.
Defined.

(** ** Embeddings and retrieval *)

Lemma embed_chunks_texts :
  forall (m : OpenAIEmbeddings) (chunks : list string) (pairs : list ChunkEmbedding),
    embed_chunks m chunks = Ok pairs -> map chunk_text pairs = chunks.
Proof.
  induction chunks as [ | chunk rest IH]; intros pairs H; cbn in H.
  - inversion H; reflexivity.
  - destruct (embed_query m chunk) as [v | e]; cbn in H; [ | discriminate].
    destruct (embed_chunks m rest) as [tail | e]; cbn in H; [ | discriminate].
    inversion H; subst pairs; cbn; rewrite (IH tail eq_refl); reflexivity.
Qed.

Lemma embeddings_empty_or_complete :
  forall (w : World) (chunks : list string),
    create_openai_embeddings w chunks = [] \/
    map chunk_text (create_openai_embeddings w chunks) = chunks.
Proof.
  intros w chunks; unfold create_openai_embeddings.
  destruct (create_embedding_model w) as [m | e]; cbn [bind];
    [ | left; reflexivity].
  destruct (embed_chunks m chunks) as [pairs | e] eqn:H; cbn [try_except];
    [right; exact (embed_chunks_texts m chunks pairs H) | left; reflexivity].
Qed.

(** X7: Given [document_chunks], the embed node stores [embedded_chunks] whose
    segments are exactly the document's segments and whose list of pairs is
    either empty or holds one pair per segment, in order, each carrying the
    text of its segment; so there are never more pairs than segments. *)
Theorem embedded_chunks_are_empty_or_complete :
  forall (w : World) (state : WorkflowState) (chunks : DocumentChunks.t),
    document_chunks state = Some chunks ->
    exists pairs,
      embedded_chunks (spread state (_create_embeddings_node w state))
      = Some (EmbeddedChunks.mk (DocumentChunks.text_segments chunks) pairs) /\
      (pairs = [] \/
       map chunk_text pairs
       = map page_content (DocumentChunks.text_segments chunks)) /\
      (List.length pairs
       <= List.length (DocumentChunks.text_segments chunks))%nat.
Proof.
  intros w state chunks H.
  rewrite (embed_node_with_chunks w state chunks H); cbn [spread embedded_chunks].
  eexists; split; [reflexivity | ].
  destruct (embeddings_empty_or_complete w
              (map page_content (DocumentChunks.text_segments chunks)))
    as [Hempty | Hfull].
  - rewrite Hempty; split; [left; reflexivity | cbn; lia].
  - split; [right; exact Hfull | ].
    apply (f_equal (@List.length string)) in Hfull.
    rewrite !length_map in Hfull; lia.
Qed.

Lemma embedded_chunks_are_empty_or_complete_witness :
  document_chunks
    (spread (initial_state "https://example.org/recipe.pdf")
       (set_document_chunks (DocumentChunks.mk "abc" [doc_a; doc_b; doc_c])))
  = Some (DocumentChunks.mk "abc" [doc_a; doc_b; doc_c]) /\
  exists pairs,
    embedded_chunks
      (spread
         (spread (initial_state "https://example.org/recipe.pdf")
            (set_document_chunks (DocumentChunks.mk "abc" [doc_a; doc_b; doc_c])))
         (_create_embeddings_node flaky_world
            (spread (initial_state "https://example.org/recipe.pdf")
               (set_document_chunks
                  (DocumentChunks.mk "abc" [doc_a; doc_b; doc_c])))))
    = Some (EmbeddedChunks.mk [doc_a; doc_b; doc_c] pairs) /\
    (List.length pairs <= 3)%nat.
Proof.
  split; [reflexivity | ].
  destruct (embedded_chunks_are_empty_or_complete flaky_world
              (spread (initial_state "https://example.org/recipe.pdf")
                 (set_document_chunks
                    (DocumentChunks.mk "abc" [doc_a; doc_b; doc_c])))
              (DocumentChunks.mk "abc" [doc_a; doc_b; doc_c]) eq_refl)
    as (pairs & Hstored & _ & Hlen).
  exists pairs; split; [exact Hstored | exact Hlen].
Defined.

(** X8: Both retrieval steps read only the segments of [embedded_chunks]: two
    states that differ in the stored pairs alone get the same answer from
    the retrieval node and from the time-extraction node.  After the embed
    node the retrieval node therefore searches all segments of the
    document, whether the embeddings were computed or lost. *)
Theorem retrieval_ignores_stored_embeddings :
  forall (w : World) (state : WorkflowState) (segments : list Document)
         (pairs pairs' : list ChunkEmbedding),
    let s := spread state (set_embedded_chunks (EmbeddedChunks.mk segments pairs)) in
    let s' := spread state (set_embedded_chunks (EmbeddedChunks.mk segments pairs')) in
    _find_relevant_chunks_node w s = _find_relevant_chunks_node w s' /\
    _extract_cooking_time_node w s = _extract_cooking_time_node w s' /\
    _find_relevant_chunks_node w s
    = set_recipe_relevant_segments (perform_rag_search w segments recipe_query 5) /\
    (forall chunks,
       document_chunks state = Some chunks ->
       DocumentChunks.text_segments chunks = segments ->
       _find_relevant_chunks_node w
         (spread state (_create_embeddings_node w state))
       = set_recipe_relevant_segments
           (perform_rag_search w segments recipe_query 5)).
Proof.
  intros w state segments pairs pairs' s s'.
  repeat split.
  - intros chunks Hchunks Hsegments.
    rewrite (embed_node_with_chunks w state chunks Hchunks), Hsegments.
    reflexivity.
Qed.

Lemma retrieval_ignores_stored_embeddings_witness :
  document_chunks
    (spread (initial_state "https://example.org/recipe.pdf")
       (set_document_chunks (DocumentChunks.mk "abc" [doc_a; doc_b; doc_c])))
  = Some (DocumentChunks.mk "abc" [doc_a; doc_b; doc_c]) /\
  _find_relevant_chunks_node flaky_world
    (spread
       (spread (initial_state "https://example.org/recipe.pdf")
          (set_document_chunks (DocumentChunks.mk "abc" [doc_a; doc_b; doc_c])))
       (_create_embeddings_node flaky_world
          (spread (initial_state "https://example.org/recipe.pdf")
             (set_document_chunks
                (DocumentChunks.mk "abc" [doc_a; doc_b; doc_c])))))
  = set_recipe_relevant_segments
      (perform_rag_search flaky_world [doc_a; doc_b; doc_c] recipe_query 5).
Proof.
  split; [reflexivity | ].
  apply (proj2 (proj2 (proj2
           (retrieval_ignores_stored_embeddings flaky_world
              (spread (initial_state "https://example.org/recipe.pdf")
                 (set_document_chunks
                    (DocumentChunks.mk "abc" [doc_a; doc_b; doc_c])))
              [doc_a; doc_b; doc_c] [] [])))
           (DocumentChunks.mk "abc" [doc_a; doc_b; doc_c]));
    reflexivity.
Defined.

(** X9: When the vector store is built and the similarity search succeeds, the
    outcome of [perform_rag_search] still depends on releasing the store:
    if [delete_collection] succeeds the list found by the search is returned
    unchanged; if it raises, the list that was found is discarded and the
    first [max_results] input documents are returned instead. *)
Theorem release_failure_discards_search_results :
  forall (w : World) (documents : list Document) (query : string)
         (max_results : Z) (m : OpenAIEmbeddings) (store : Chroma)
         (found : list Document),
    create_embedding_model w = Ok m ->
    Chroma_from_documents w documents m = Ok store ->
    similarity_search store query max_results = Ok found ->
    (delete_collection store = Ok tt ->
     perform_rag_search w documents query max_results = found) /\
    (forall e,
       delete_collection store = Raise e ->
       perform_rag_search w documents query max_results
       = slice_to documents max_results).
Proof.
  intros w documents query max_results m store found Hm Hs Hf.
  split.
  - intros Hd.
    exact (rag_search_success w documents query max_results m store found
             Hm Hs Hf Hd).
  - intros e Hd; unfold perform_rag_search, chroma_search.
    rewrite Hm; cbn [bind]; rewrite Hs; cbn [bind]; rewrite Hf; cbn [bind].
    rewrite Hd; reflexivity.
Qed.

Lemma release_failure_discards_search_results_witness :
  similarity_search undeletable_store time_query 3 = Ok [doc_d] /\
  delete_collection undeletable_store
    = Raise (OtherException "collection is locked") /\
  perform_rag_search undeletable_world [doc_a; doc_b; doc_c; doc_d] time_query 3
    = [doc_a; doc_b; doc_c].
Proof.
  split; [reflexivity | split; [reflexivity | ]].
  apply (proj2 (release_failure_discards_search_results undeletable_world
                  [doc_a; doc_b; doc_c; doc_d] time_query 3 flaky_embeddings
                  undeletable_store [doc_d] eq_refl eq_refl eq_refl)
           (OtherException "collection is locked") eq_refl).
Defined.

(** ** The total stored by the time-extraction node *)

(** X10: The time-extraction node always overwrites [total_cooking_minutes]:
    whatever the state held, the node writes that key and the state it
    returns holds the value written.  A number is stored only if
    [embedded_chunks] was present, the retrieval returned at least one
    segment, the chat model could be built, the agent returned, and its
    trace records a [sum_minutes] call whose arguments sum to that number. *)
Theorem stored_total_comes_from_a_tool_call :
  forall (w : World) (state : WorkflowState),
    (exists v,
       _extract_cooking_time_node w state = set_total_cooking_minutes v /\
       total_cooking_minutes (spread state (_extract_cooking_time_node w state))
       = v) /\
    (forall total,
       total_cooking_minutes (spread state (_extract_cooking_time_node w state))
         = Some total ->
       exists embedded m r call,
         embedded_chunks state = Some embedded /\
         perform_rag_search w (EmbeddedChunks.text_segments embedded)
           time_query 3 <> [] /\
         create_chat_model w = Ok m /\
         agent_executor m
           (agent_input
              (context_of
                 (perform_rag_search w (EmbeddedChunks.text_segments embedded)
                    time_query 3))) = Ok r /\
         records_sum_minutes_call (steps_of r) call /\
         total = py_sum (ToolCall.args call)).
Proof.
  intros w state; split.
  { destruct (proj2 (extraction_nodes_write_their_field w state)) as [v Hv].
    exists v; rewrite Hv; split; reflexivity. }
  intros total; unfold _extract_cooking_time_node.
  destruct (embedded_chunks state) as [embedded | ]; cbn [attr_of bind try_except];
    [ | cbn; discriminate].
  destruct (perform_rag_search w (EmbeddedChunks.text_segments embedded)
              time_query 3) as [ | segment rest] eqn:Hfound;
    [cbn; discriminate | ].
  cbn [spread total_cooking_minutes].
  unfold extract_cooking_time_with_tools; cbn zeta.
  destruct (create_chat_model w) as [m | e]; cbn [bind try_except];
    [ | discriminate].
  destruct (agent_executor m (agent_input (context_of (segment :: rest))))
    as [r | e] eqn:Hagent; cbn [bind try_except]; [ | discriminate].
  destruct (_extract_sum_minutes_from_agent_result r) as [t | ] eqn:Hsum;
    cbn [try_except]; [ | discriminate].
  intros H; inversion H; subst t.
  destruct (inspect_steps_some (steps_of r) total Hsum) as (call & Hrec & Ht).
  exists embedded, m, r, call.
  rewrite Hfound.
  split; [reflexivity | split; [discriminate | split; [reflexivity | ]]].
  split; [exact Hagent | split; [exact Hrec | exact Ht]].
Qed.

Lemma stored_total_comes_from_a_tool_call_witness :
  total_cooking_minutes
    (spread
       (spread (initial_state "https://example.org/recipe.pdf")
          (set_embedded_chunks (EmbeddedChunks.mk [doc_a] [])))
       (_extract_cooking_time_node helpful_world
          (spread (initial_state "https://example.org/recipe.pdf")
             (set_embedded_chunks (EmbeddedChunks.mk [doc_a] [])))))
  = Some 30%Q /\
  exists embedded m r call,
    embedded_chunks
      (spread (initial_state "https://example.org/recipe.pdf")
         (set_embedded_chunks (EmbeddedChunks.mk [doc_a] [])))
    = Some embedded /\
    perform_rag_search helpful_world (EmbeddedChunks.text_segments embedded)
      time_query 3 <> [] /\
    create_chat_model helpful_world = Ok m /\
    agent_executor m
      (agent_input
         (context_of
            (perform_rag_search helpful_world
               (EmbeddedChunks.text_segments embedded) time_query 3))) = Ok r /\
    records_sum_minutes_call (steps_of r) call /\
    30%Q = py_sum (ToolCall.args call).
Proof.
  split; [reflexivity | ].
  exact (proj2 (stored_total_comes_from_a_tool_call helpful_world
                  (spread (initial_state "https://example.org/recipe.pdf")
                     (set_embedded_chunks (EmbeddedChunks.mk [doc_a] []))))
           30%Q eq_refl).
Defined.

(** ** Strings built by the nodes *)

Lemma append_empty_right : forall s : string, s ++ EmptyString = s.
Proof. induction s as [ | c s IH]; cbn; [reflexivity | rewrite IH; reflexivity]. Qed.

Lemma append_associative :
  forall a b c : string, (a ++ b) ++ c = a ++ (b ++ c).
Proof.
  induction a as [ | x a IH]; intros b c; cbn;
    [reflexivity | rewrite IH; reflexivity].
Qed.

Lemma characters_of_append :
  forall a b : string,
    list_ascii_of_string (a ++ b)
    = (list_ascii_of_string a ++ list_ascii_of_string b)%list.
Proof.
  induction a as [ | x a IH]; intros b; cbn;
    [reflexivity | rewrite IH; reflexivity].
Qed.

Lemma last_component_has_no_slash :
  forall s current : string,
    ~ In "/"%char (list_ascii_of_string current) ->
    ~ In "/"%char (list_ascii_of_string (last_component s current)).
Proof.
  induction s as [ | c s IH]; intros current Hcurrent; cbn.
  - exact Hcurrent.
  - destruct (Ascii.eqb c "/") eqn:Hc.
    + apply IH; cbn; tauto.
    + apply IH. rewrite characters_of_append; cbn.
      intros Hin; apply in_app_or in Hin.
      destruct Hin as [Hin | [Heq | []]]; [exact (Hcurrent Hin) | ].
      apply Ascii.eqb_neq in Hc; congruence.
Qed.

Lemma last_component_without_slash :
  forall name current : string,
    ~ In "/"%char (list_ascii_of_string name) ->
    last_component name current = current ++ name.
Proof.
  induction name as [ | c name IH]; intros current Hname; cbn.
  - symmetry; apply append_empty_right.
  - cbn in Hname.
    destruct (Ascii.eqb c "/") eqn:Hc.
    + apply Ascii.eqb_eq in Hc; subst c; exfalso; apply Hname; left; reflexivity.
    + rewrite IH by tauto. rewrite append_associative; reflexivity.
Qed.

Lemma last_component_after_slash :
  forall prefix name current : string,
    ~ In "/"%char (list_ascii_of_string name) ->
    last_component (prefix ++ String "/" name) current = name.
Proof.
  induction prefix as [ | c prefix IH]; intros name current Hname; cbn.
  - apply (last_component_without_slash name EmptyString Hname).
  - destruct (Ascii.eqb c "/"); apply IH; exact Hname.
Qed.

(** X11: The file name that the validate node hands to the validation chain,
    [pdf_url.split('/')[-1] or 'recipe.pdf'], is never empty and never
    contains a slash.  It is the text after the last slash of the URL; when
    that text is empty (the URL ends in a slash or is empty) it is
    ["recipe.pdf"]; a non-empty URL without any slash is its own file
    name. *)
Theorem filename_is_the_last_component :
  forall url : string,
    let filename := or_else (last_component url EmptyString) "recipe.pdf" in
    filename <> EmptyString /\
    ~ In "/"%char (list_ascii_of_string filename) /\
    (forall prefix name,
       url = prefix ++ String "/" name ->
       ~ In "/"%char (list_ascii_of_string name) ->
       filename = or_else name "recipe.pdf") /\
    (~ In "/"%char (list_ascii_of_string url) ->
     filename = or_else url "recipe.pdf").
Proof.
  intros url filename.
  split; [ | split; [ | split]].
  - subst filename; destruct (last_component url EmptyString); discriminate.
  - subst filename.
    pose proof (last_component_has_no_slash url EmptyString) as H.
    destruct (last_component url EmptyString) as [ | c rest]; cbn [or_else].
    + cbn; intros Hin.
      repeat (destruct Hin as [Heq | Hin]; [discriminate Heq | ]).
      exact Hin.
    + apply H; cbn; tauto.
  - intros prefix name Hurl Hname; subst filename url.
    rewrite (last_component_after_slash prefix name EmptyString Hname).
    reflexivity.
  - intros Hurl; subst filename.
    rewrite (last_component_without_slash url EmptyString Hurl); reflexivity.
Qed.

Lemma filename_is_the_last_component_witness :
  "https://example.org/pdf/recipe05.pdf"
    = "https://example.org/pdf" ++ String "/" "recipe05.pdf" /\
  ~ In "/"%char (list_ascii_of_string "recipe05.pdf") /\
  or_else (last_component "https://example.org/pdf/recipe05.pdf" EmptyString)
    "recipe.pdf" = "recipe05.pdf".
Proof.
  assert (Hname : ~ In "/"%char (list_ascii_of_string "recipe05.pdf")).
  { cbn; intros Hin.
    repeat (destruct Hin as [Heq | Hin]; [discriminate Heq | ]).
    exact Hin. }
  split; [reflexivity | split; [exact Hname | ]].
  apply (proj1 (proj2 (proj2
           (filename_is_the_last_component
              "https://example.org/pdf/recipe05.pdf")))
           "https://example.org/pdf" "recipe05.pdf" eq_refl Hname).
Defined.

Lemma concat_contains_every_part :
  forall (sep : string) (parts : list string) (part : string),
    In part parts ->
    exists before after, String.concat sep parts = before ++ part ++ after.
Proof.
  intros sep; induction parts as [ | x xs IH]; intros part Hin.
  - destruct Hin.
  - destruct Hin as [-> | Hin].
    + destruct xs as [ | y ys].
      * exists EmptyString, EmptyString; cbn.
        symmetry; apply append_empty_right.
      * exists EmptyString, (sep ++ String.concat sep (y :: ys)); reflexivity.
    + destruct (IH part Hin) as (before & after & Heq).
      destruct xs as [ | y ys]; [destruct Hin | ].
      exists (x ++ sep ++ before), after.
      change (String.concat sep (x :: y :: ys))
        with (x ++ sep ++ String.concat sep (y :: ys)).
      rewrite Heq, !append_associative; reflexivity.
Qed.

(** X12: The context handed to the model leaves no retrieved segment out: the
    text of every segment occurs in it, right after its own header line.
    Without segments the context is empty. *)
Theorem context_contains_every_segment :
  forall (docs : list Document) (doc : Document),
    In doc docs ->
    exists before after,
      context_of docs
      = before ++ ("【文書内容】" ++ nl ++ page_content doc) ++ after.
Proof.
  intros docs doc Hin; unfold context_of, join.
  apply concat_contains_every_part.
  apply (in_map (fun d => "【文書内容】" ++ nl ++ page_content d) docs doc Hin).
Qed.

Lemma context_contains_every_segment_witness :
  In doc_b [doc_a; doc_b] /\
  exists before after,
    context_of [doc_a; doc_b]
    = before ++ ("【文書内容】" ++ nl ++ page_content doc_b) ++ after.
Proof.
  split; [right; left; reflexivity | ].
  apply (context_contains_every_segment [doc_a; doc_b] doc_b).
  right; left; reflexivity.
Defined.

(** ** The report of the result *)

Lemma ingredient_json_injective :
  forall a b : Ingredient.t, ingredient_json a = ingredient_json b -> a = b.
Proof.
  intros [n1 u1 q1] [n2 u2 q2] H; unfold ingredient_json in H; cbn in H.
  inversion H; reflexivity.
Qed.

Lemma ingredients_json_injective :
  forall l1 l2 : list Ingredient.t,
    map ingredient_json l1 = map ingredient_json l2 -> l1 = l2.
Proof.
  induction l1 as [ | a l1 IH]; intros [ | b l2] H; cbn in H;
    try discriminate; [reflexivity | ].
  pose proof (f_equal (hd JNull) H) as Hhead.
  pose proof (f_equal (@tl json) H) as Htail.
  cbn [hd tl] in Hhead, Htail.
  rewrite (ingredient_json_injective a b Hhead), (IH l2 Htail); reflexivity.
Qed.

(** X13: The JSON value that is printed loses nothing: two results with the same
    JSON value are equal.  Its shape is fixed: an object with the keys
    ["recipe"] and ["total_cooking_minutes"]; ["recipe"] holds ["name"],
    which is null exactly when no recipe was extracted, and
    ["ingredients"], which is always an array, empty without a recipe and
    with one entry per ingredient otherwise; the total is null exactly when
    it is [None], so a total of zero is printed as a number. *)
Theorem json_result_is_faithful :
  (forall r1 r2 : RecipeExtractionResult.t,
     json_result r1 = json_result r2 -> r1 = r2) /\
  (forall r : RecipeExtractionResult.t,
     exists name items total,
       json_result r
       = JObject [ ("recipe",
                    JObject [ ("name", name); ("ingredients", JArray items) ]);
                   ("total_cooking_minutes", total) ] /\
       (name = JNull <-> RecipeExtractionResult.extracted_recipe r = None) /\
       (total = JNull <-> RecipeExtractionResult.total_cooking_minutes r = None) /\
       List.length items
       = match RecipeExtractionResult.extracted_recipe r with
         | Some recipe => List.length (RecipeEntity.ingredients recipe)
         | None => O
         end).
Proof.
  split.
  - intros [[[n1 l1] | ] [t1 | ]] [[[n2 l2] | ] [t2 | ]] H;
      unfold json_result in H; cbn in H; inversion H; subst;
      try reflexivity;
      match goal with
      | Hl : map ingredient_json _ = map ingredient_json _ |- _ =>
          rewrite (ingredients_json_injective _ _ Hl); reflexivity
      end.
  - intros [[recipe | ] [t | ]]; unfold json_result; cbn;
      eexists; eexists; eexists;
      (split; [reflexivity | ]);
      (split; [split; discriminate || reflexivity | ]);
      (split; [split; discriminate || reflexivity | ]);
      try apply length_map; reflexivity.
Qed.

Lemma json_result_is_faithful_witness :
  json_result (RecipeExtractionResult.mk (Some curry) (Some 30%Q))
  = json_result
      (RecipeExtractionResult.mk
         (Some (RecipeEntity.mk "カレーライス" [Ingredient.mk "玉ねぎ" "個" 2%Q]))
         (Some (sum_minutes [10%Q; 15%Q; 5%Q]))) /\
  RecipeExtractionResult.mk (Some curry) (Some 30%Q)
  = RecipeExtractionResult.mk
      (Some (RecipeEntity.mk "カレーライス" [Ingredient.mk "玉ねぎ" "個" 2%Q]))
      (Some (sum_minutes [10%Q; 15%Q; 5%Q])).
Proof.
  split; [reflexivity | ].
  apply (proj1 json_result_is_faithful); reflexivity.
Defined.

(** X14: A total of zero minutes is falsy: the text report prints the line for a
    missing cooking time, although the total is present and the JSON value
    printed below carries it as a number.  Any other total is printed with
    its value. *)
Theorem zero_total_is_reported_as_missing :
  forall (str_of_float : Q -> string) (dumps : json -> string)
         (r : RecipeExtractionResult.t) (minutes : Q),
    RecipeExtractionResult.total_cooking_minutes r = Some minutes ->
    ((minutes == 0)%Q ->
     total_lines str_of_float (Some minutes) = [ nl ++ "⏰ 調理時間情報なし" ] /\
     In (nl ++ "⏰ 調理時間情報なし") (display_results str_of_float dumps r)) /\
    (~ (minutes == 0)%Q ->
     In (nl ++ "🕐 総調理時間: " ++ str_of_float minutes ++ "分")
       (display_results str_of_float dumps r)) /\
    lookup "total_cooking_minutes"
      (match json_result r with
       | JObject members => members
       | _ => []
       end) = Some (JNumber minutes).
Proof.
  intros str_of_float dumps r minutes Hr.
  assert (Hin : forall line,
             In line (total_lines str_of_float (Some minutes)) ->
             In line (display_results str_of_float dumps r)).
  { intros line Hline; unfold display_results; rewrite Hr.
    apply in_or_app; right; apply in_or_app; right.
    apply in_or_app; left; exact Hline. }
  split; [ | split].
  - intros Hzero.
    assert (Hlines : total_lines str_of_float (Some minutes)
                     = [ nl ++ "⏰ 調理時間情報なし" ]).
    { unfold total_lines, truthy_number.
      rewrite (proj2 (Qeq_bool_iff minutes 0) Hzero); reflexivity. }
    split; [exact Hlines | ].
    apply Hin; rewrite Hlines; left; reflexivity.
  - intros Hnonzero; apply Hin.
    unfold total_lines, truthy_number.
    destruct (Qeq_bool minutes 0) eqn:Hb.
    + exfalso; apply Hnonzero; apply Qeq_bool_iff; exact Hb.
    + left; reflexivity.
  - unfold json_result; rewrite Hr; reflexivity.
Qed.

Lemma zero_total_is_reported_as_missing_witness :
  RecipeExtractionResult.total_cooking_minutes
    (RecipeExtractionResult.mk None (Some (sum_minutes []))) = Some 0%Q /\
  (0 == 0)%Q /\
  In (nl ++ "⏰ 調理時間情報なし")
    (display_results (fun _ => "0.0") (fun _ => "{}")
       (RecipeExtractionResult.mk None (Some (sum_minutes [])))).
Proof.
  split; [reflexivity | split; [reflexivity | ]].
  apply (proj1 (zero_total_is_reported_as_missing (fun _ => "0.0")
                  (fun _ => "{}")
                  (RecipeExtractionResult.mk None (Some (sum_minutes [])))
                  0%Q eq_refl)).
  reflexivity.
Defined.

(** ** The PDF service *)

Lemma reraise_raises_with_prefix :
  forall (A : Type) (prefix : string) (body : result A) (e : exn),
    PdfService.reraise prefix body = Raise e ->
    exists cause, body = Raise cause /\ e = OtherException (prefix ++ str cause).
Proof.
  intros A prefix [a | cause] e H; cbn in H; [discriminate | ].
  inversion H; exists cause; split; reflexivity.
Qed.

Lemma extract_pages_fails_on_a_failing_page :
  forall (pages : list (result string)) (text : string) (e : exn),
    In (Raise e) pages ->
    exists e', PdfService.extract_pages pages text = Raise e'.
Proof.
  induction pages as [ | page rest IH]; intros text e Hin.
  - destruct Hin.
  - cbn; destruct page as [page_text | e0]; cbn [bind];
      [ | eexists; reflexivity].
    destruct Hin as [Heq | Hin]; [discriminate Heq | ].
    exact (IH _ e Hin).
Qed.

Lemma extract_pages_failure_is_a_page :
  forall (pages : list (result string)) (text : string) (cause : exn),
    PdfService.extract_pages pages text = Raise cause ->
    In (Raise cause) pages.
Proof.
  induction pages as [ | page rest IH]; intros text cause H; cbn in H.
  - discriminate.
  - destruct page as [page_text | e]; cbn [bind] in H.
    + right; exact (IH _ cause H).
    + left; inversion H; reflexivity.
Qed.

(** X15: Whatever goes wrong inside the PDF service comes out as a plain
    exception whose text is the method's fixed prefix followed by the text
    of the cause, where the cause is the exception raised by the request or
    by [raise_for_status], by the reader or by the extraction of a page, or
    by the splitter.  [download_pdf_sync] returns the body of a response only
    when the request succeeded and [raise_for_status] did not raise;
    [parse_document] does not return a partial document when the text of
    one page cannot be extracted.  In a workflow that uses this service, an
    error status makes the download node record the prefixed text in
    [error] and makes the validate node fall back. *)
Theorem pdf_service_failures_are_wrapped :
  forall (requests_get : string -> result PdfService.Response)
         (PdfReader : string -> result (list (result string)))
         (strip : string -> string)
         (split_documents : list Document -> result (list Document)),
    (forall url e,
       PdfService.download_pdf_sync requests_get url = Raise e ->
       exists cause,
         e = OtherException ("PDFダウンロードエラー: " ++ str cause) /\
         (requests_get url = Raise cause \/
          exists response,
            requests_get url = Ok response /\
            PdfService.raise_for_status response = Raise cause)) /\
    (forall url bytes,
       PdfService.download_pdf_sync requests_get url = Ok bytes <->
       exists response,
         requests_get url = Ok response /\
         PdfService.raise_for_status response = Ok tt /\
         PdfService.content response = bytes) /\
    (forall pdf_bytes e,
       PdfService.parse_document PdfReader strip pdf_bytes = Raise e ->
       exists cause,
         e = OtherException ("PDF解析エラー: " ++ str cause) /\
         (PdfReader pdf_bytes = Raise cause \/
          exists pages,
            PdfReader pdf_bytes = Ok pages /\ In (Raise cause) pages)) /\
    (forall pdf_bytes pages e,
       PdfReader pdf_bytes = Ok pages -> In (Raise e) pages ->
       exists e', PdfService.parse_document PdfReader strip pdf_bytes = Raise e') /\
    (forall document e,
       PdfService.split_document split_documents document = Raise e ->
       exists cause,
         e = OtherException ("ドキュメント分割エラー: " ++ str cause) /\
         split_documents [document] = Raise cause) /\
    (forall w state response cause,
       requests_get (pdf_url state) = Ok response ->
       PdfService.raise_for_status response = Raise cause ->
       let w' := PdfService.world_with_service requests_get PdfReader strip
                   split_documents w in
       _download_extract_pdf_node w' state
         = set_error ("PDFダウンロードエラー: " ++ str cause) /\
       _validate_recipe_pdf_node w' state
         = set_validation_result fallback_validation_result).
Proof.
  intros requests_get PdfReader strip split_documents.
  split; [ | split; [ | split; [ | split; [ | split]]]].
  - intros url e H; unfold PdfService.download_pdf_sync in H.
    destruct (reraise_raises_with_prefix _ _ _ _ H) as (cause & Hbody & He).
    exists cause; split; [exact He | ].
    destruct (requests_get url) as [response | e0]; cbn [bind] in Hbody.
    + right; exists response; split; [reflexivity | ].
      destruct (PdfService.raise_for_status response) as [u | e1];
        cbn [bind] in Hbody; [discriminate | ].
      inversion Hbody; reflexivity.
    + left; inversion Hbody; reflexivity.
  - intros url bytes; unfold PdfService.download_pdf_sync; split.
    + destruct (requests_get url) as [response | e0]; cbn; [ | discriminate].
      destruct (PdfService.raise_for_status response) as [[] | e1] eqn:Hstatus;
        cbn; [ | discriminate].
      intros H; inversion H; exists response; repeat split; exact Hstatus.
    + intros (response & Hget & Hstatus & Hcontent).
      rewrite Hget; cbn; rewrite Hstatus; cbn; rewrite Hcontent; reflexivity.
  - intros pdf_bytes e H; unfold PdfService.parse_document in H.
    destruct (reraise_raises_with_prefix _ _ _ _ H) as (cause & Hbody & He).
    exists cause; split; [exact He | ].
    destruct (PdfReader pdf_bytes) as [pages | e0]; cbn [bind] in Hbody.
    + right; exists pages; split; [reflexivity | ].
      destruct (PdfService.extract_pages pages EmptyString) as [text | e1]
        eqn:Hpages; cbn [bind] in Hbody; [discriminate | ].
      inversion Hbody; subst e1.
      exact (extract_pages_failure_is_a_page pages EmptyString cause Hpages).
    + left; inversion Hbody; reflexivity.
  - intros pdf_bytes pages e Hread Hin; unfold PdfService.parse_document.
    rewrite Hread; cbn [bind].
    destruct (extract_pages_fails_on_a_failing_page pages EmptyString e Hin)
      as [e' He'].
    rewrite He'; cbn; eexists; reflexivity.
  - intros document e H; unfold PdfService.split_document in H.
    destruct (reraise_raises_with_prefix _ _ _ _ H) as (cause & Hbody & He).
    exists cause; split; [exact He | ].
    destruct (split_documents [document]) as [chunks | e0]; cbn [bind] in Hbody;
      [discriminate | ].
    inversion Hbody; reflexivity.
  - intros w state response cause Hget Hstatus w'.
    assert (Hdownload : download_pdf_sync w' (pdf_url state)
                        = Raise (OtherException
                                   ("PDFダウンロードエラー: " ++ str cause))).
    { subst w'; cbn [download_pdf_sync PdfService.world_with_service].
      unfold PdfService.download_pdf_sync.
      rewrite Hget; cbn [bind]; rewrite Hstatus; reflexivity. }
    split.
    + rewrite (download_node_failure w' state _ Hdownload); reflexivity.
    + unfold _validate_recipe_pdf_node; rewrite Hdownload; reflexivity.
Qed.

Lemma pdf_service_failures_are_wrapped_witness :
  PdfService.raise_for_status not_found_response
    = Raise (OtherException "404 Client Error") /\
  _download_extract_pdf_node
    (PdfService.world_with_service (fun _ => Ok not_found_response)
       (fun _ => Ok []) (fun text => text) (fun docs => Ok docs)
       offline_world)
    (initial_state "https://example.org/recipe.pdf")
  = set_error ("PDFダウンロードエラー: " ++ "404 Client Error").
Proof.
  split; [reflexivity | ].
  apply (proj1 (proj2 (proj2 (proj2 (proj2 (proj2
           (pdf_service_failures_are_wrapped (fun _ => Ok not_found_response)
              (fun _ => Ok []) (fun text => text) (fun docs => Ok docs))))))
           offline_world (initial_state "https://example.org/recipe.pdf")
           not_found_response (OtherException "404 Client Error")
           eq_refl eq_refl)).
Defined.

(** ** The aggregation tool *)

Lemma fold_sum_bounds :
  forall (l : list Q) (start : Q),
    (0 <= start)%Q ->
    (forall x, In x l -> (0 <= x)%Q) ->
    (start <= fold_left Qplus l start)%Q /\
    (forall x, In x l -> (x <= fold_left Qplus l start)%Q).
Proof.
  induction l as [ | y l IH]; intros start Hstart Hall; cbn.
  - split; [lra | intros x []].
  - assert (Hy : (0 <= y)%Q) by (apply Hall; left; reflexivity).
    destruct (IH (start + y)%Q) as [Hlow Hrest];
      [lra | intros x Hx; apply Hall; right; exact Hx | ].
    split; [lra | ].
    intros x [-> | Hx]; [lra | exact (Hrest x Hx)].
Qed.

(** X16: When no duration handed to [sum_minutes] is negative, the total is not
    negative and is at least as large as every single duration. *)
Theorem sum_minutes_bounds :
  forall minutes_list : list Q,
    (forall x, In x minutes_list -> (0 <= x)%Q) ->
    (0 <= sum_minutes minutes_list)%Q /\
    (forall x, In x minutes_list -> (x <= sum_minutes minutes_list)%Q).
Proof.
  intros minutes_list Hall.
  rewrite sum_minutes_is_py_sum; unfold py_sum.
  apply fold_sum_bounds; [lra | exact Hall].
Qed.

Lemma sum_minutes_bounds_witness :
  (forall x, In x [10%Q; 15%Q; 5%Q] -> (0 <= x)%Q) /\
  (15 <= sum_minutes [10%Q; 15%Q; 5%Q])%Q.
Proof.
  assert (Hall : forall x, In x [10%Q; 15%Q; 5%Q] -> (0 <= x)%Q).
  { intros x [<- | [<- | [<- | []]]]; lra. }
  split; [exact Hall | ].
  apply (proj2 (sum_minutes_bounds [10%Q; 15%Q; 5%Q] Hall) 15%Q).
  right; left; reflexivity.
Defined.

(** ** Runs that start anywhere in the graph *)

(** X17: The graph has no dead end and no cycle: started at any registered node,
    the engine reaches [END] after at most eight node executions, and the
    final state holds a [final_result]. *)
Theorem every_node_leads_to_END :
  forall (w : World) (node : string) (state : WorkflowState),
    In node (map fst (nodes (create_langgraph_workflow w))) ->
    exists final log,
      run_from (create_langgraph_workflow w) 8 node state = Some (final, log) /\
      (1 <= List.length log <= 8)%nat /\
      exists r, final_result final = Some r.
Proof.
  intros w node state Hin; cbn in Hin.
  destruct Hin as [<- | [<- | [<- | [<- | [<- | [<- | [<- | [<- | [<- | []]]]]]]]]].
  - rewrite run_from_validate_recipe_pdf; cbn zeta.
    set (a0 := _validate_recipe_pdf_node w state).
    set (s0 := spread state a0).
    destruct (String.eqb (_should_continue_processing s0) "continue").
    + pose proof (run_from_download_extract_pdf w 0 s0) as Hrun.
      change (7 + 0)%nat with 7%nat in Hrun; rewrite Hrun; clear Hrun.
      destruct (extraction_log_summary w s0) as (_ & Hpath & Hfinal).
      destruct (extraction_log w s0) as [final log]; cbn [fst snd] in *.
      eexists; eexists; split; [reflexivity | ].
      apply (f_equal (@List.length string)) in Hpath.
      rewrite length_map in Hpath; cbn in Hpath.
      split; [cbn [List.length]; unfold Event in *; lia | ].
      eexists; exact Hfinal.
    + rewrite (run_from_not_recipe_finish w 6 s0).
      eexists; eexists; split; [reflexivity | ].
      split; [cbn; lia | eexists; reflexivity].
  - eexists; eexists; split; [reflexivity | ].
    split; [cbn; lia | eexists; reflexivity].
  - eexists; eexists; split; [reflexivity | ].
    split; [cbn; lia | eexists; reflexivity].
  - eexists; eexists; split; [reflexivity | ].
    split; [cbn; lia | eexists; reflexivity].
  - eexists; eexists; split; [reflexivity | ].
    split; [cbn; lia | eexists; reflexivity].
  - eexists; eexists; split; [reflexivity | ].
    split; [cbn; lia | eexists; reflexivity].
  - eexists; eexists; split; [reflexivity | ].
    split; [cbn; lia | eexists; reflexivity].
  - eexists; eexists; split; [reflexivity | ].
    split; [cbn; lia | eexists; reflexivity].
  - eexists; eexists; split; [reflexivity | ].
    split; [cbn; lia | eexists; reflexivity].
Qed.

Lemma every_node_leads_to_END_witness :
  In "split_chunks" (map fst (nodes (create_langgraph_workflow offline_world))) /\
  exists final log,
    run_from (create_langgraph_workflow offline_world) 8 "split_chunks"
      (initial_state "https://example.org/recipe.pdf") = Some (final, log) /\
    (1 <= List.length log <= 8)%nat /\
    exists r, final_result final = Some r.
Proof.
  assert (Hin : In "split_chunks"
                  (map fst (nodes (create_langgraph_workflow offline_world))))
    by (cbn; tauto).
  split; [exact Hin | ].
  exact (every_node_leads_to_END offline_world "split_chunks"
           (initial_state "https://example.org/recipe.pdf") Hin).
Defined.

(** ** Which tool call is read *)

Lemma first_sum_minutes_call_skips :
  forall (before : list ToolCall.t) (call : ToolCall.t) (after : list ToolCall.t),
    (forall c, In c before -> ToolCall.name c <> "sum_minutes") ->
    ToolCall.name call = "sum_minutes" ->
    first_sum_minutes_call (before ++ call :: after)%list
    = Some (py_sum (ToolCall.args call)).
Proof.
  induction before as [ | c before IH]; intros call after Hbefore Hcall; cbn.
  - rewrite Hcall; cbn. rewrite sum_minutes_is_py_sum; reflexivity.
  - rewrite (proj2 (String.eqb_neq _ _) (Hbefore c (or_introl eq_refl))).
    apply IH; [intros c' Hc'; apply Hbefore; right; exact Hc' | exact Hcall].
Qed.

Lemma inspect_steps_skips :
  forall (before : list Step) (rest : list Step),
    (forall call, ~ records_sum_minutes_call before call) ->
    inspect_steps (before ++ rest)%list = inspect_steps rest.
Proof.
  induction before as [ | step before IH]; intros rest Hnone; cbn.
  - reflexivity.
  - destruct (inspect_step step) as [total | ] eqn:Hstep.
    + destruct (inspect_step_some _ _ Hstep) as (call & Hrec & _).
      exfalso; apply (Hnone call); apply records_cons; left; exact Hrec.
    + apply IH; intros call Hrec; apply (Hnone call).
      apply records_cons; right; exact Hrec.
Qed.

(** X18: Totals are not accumulated over tool calls.  The total is the sum of
    the arguments of one call: the first call named [sum_minutes] in the
    first message logged by the first step that is a [sum_minutes] action
    and logs such a call.  Calls listed after it, later messages of the log
    and later steps do not contribute. *)
Theorem first_recorded_call_wins :
  forall (prose : string) (steps_before steps_after : list Step)
         (action : AgentAction) (observation : string)
         (message : AIMessage) (later_messages : list AIMessage)
         (calls_before calls_after : list ToolCall.t) (call : ToolCall.t),
    (forall c, ~ records_sum_minutes_call steps_before c) ->
    tool action = Some "sum_minutes" ->
    message_log action = Some (message :: later_messages) ->
    tool_calls message = Some (calls_before ++ call :: calls_after)%list ->
    (forall c, In c calls_before -> ToolCall.name c <> "sum_minutes") ->
    ToolCall.name call = "sum_minutes" ->
    _extract_sum_minutes_from_agent_result
      (mkAgentResult prose
         (Some (steps_before ++ (action, observation) :: steps_after)%list))
    = Some (py_sum (ToolCall.args call)).
Proof.
  intros prose steps_before steps_after action observation message
    later_messages calls_before calls_after call
    Hbefore Htool Hlog Hcalls Hcalls_before Hcall.
  unfold _extract_sum_minutes_from_agent_result, steps_of; cbn zeta.
  cbn [intermediate_steps].
  rewrite (inspect_steps_skips steps_before _ Hbefore).
  cbn [inspect_steps inspect_step].
  rewrite Htool; cbn [String.eqb Ascii.eqb Bool.eqb]; rewrite Hlog, Hcalls.
  rewrite (first_sum_minutes_call_skips calls_before call calls_after
             Hcalls_before Hcall).
  reflexivity.
Qed.

Lemma first_recorded_call_wins_witness :
  _extract_sum_minutes_from_agent_result
    (mkAgentResult "45"
       (Some [ (mkAgentAction (Some "sum_minutes")
                  (Some [ mkAIMessage ""
                            (Some [ ToolCall.mk "sum_minutes" [10%Q; 15%Q; 5%Q];
                                    ToolCall.mk "sum_minutes" [15%Q] ]) ]),
                "30.0");
               (mkAgentAction (Some "sum_minutes")
                  (Some [ mkAIMessage "" (Some [ ToolCall.mk "sum_minutes" [15%Q] ]) ]),
                "15.0") ]))
  = Some (py_sum [10%Q; 15%Q; 5%Q]).
Proof.
  apply (first_recorded_call_wins "45" []
           [ (mkAgentAction (Some "sum_minutes")
                (Some [ mkAIMessage "" (Some [ ToolCall.mk "sum_minutes" [15%Q] ]) ]),
              "15.0") ]
           (mkAgentAction (Some "sum_minutes")
              (Some [ mkAIMessage ""
                        (Some [ ToolCall.mk "sum_minutes" [10%Q; 15%Q; 5%Q];
                                ToolCall.mk "sum_minutes" [15%Q] ]) ]))
           "30.0"
           (mkAIMessage ""
              (Some [ ToolCall.mk "sum_minutes" [10%Q; 15%Q; 5%Q];
                      ToolCall.mk "sum_minutes" [15%Q] ]))
           [] [] [ ToolCall.mk "sum_minutes" [15%Q] ]
           (ToolCall.mk "sum_minutes" [10%Q; 15%Q; 5%Q])).
  - intros c (a & o & m & rest & calls & [] & _).
  - reflexivity.
  - reflexivity.
  - reflexivity.
  - intros c [].
  - reflexivity.
Defined.

(** ** The text of a parsed document *)

Lemma extract_pages_appends :
  forall (texts : list string) (text : string),
    PdfService.extract_pages (map (@Ok string) texts) text
    = Ok (text ++ String.concat EmptyString (map (fun t => t ++ nl) texts)).
Proof.
  induction texts as [ | t texts IH]; intros text; cbn [map PdfService.extract_pages].
  - cbn; rewrite append_empty_right; reflexivity.
  - cbn [bind]; rewrite IH.
    destruct texts as [ | t' texts'].
    + cbn; rewrite append_empty_right; reflexivity.
    + change (String.concat EmptyString (map (fun t => t ++ nl) (t :: t' :: texts')))
        with ((t ++ nl) ++ EmptyString
              ++ String.concat EmptyString (map (fun t => t ++ nl) (t' :: texts'))).
      cbn [append]; rewrite append_associative; reflexivity.
Qed.

(** X19: When the reader opens the file and the text of every page can be
    extracted, [parse_document] returns one document whose content is the
    texts of all pages in page order, each followed by a newline, with
    [strip] applied once to the whole; a file without pages gives
    [strip("")]. *)
Theorem parse_document_joins_the_pages :
  forall (PdfReader : string -> result (list (result string)))
         (strip : string -> string) (pdf_bytes : string) (texts : list string),
    PdfReader pdf_bytes = Ok (map (@Ok string) texts) ->
    PdfService.parse_document PdfReader strip pdf_bytes
    = Ok (mkDocument
            (strip (String.concat EmptyString (map (fun t => t ++ nl) texts)))).
Proof.
  intros PdfReader strip pdf_bytes texts Hread.
  unfold PdfService.parse_document; rewrite Hread; cbn [bind].
  rewrite extract_pages_appends; reflexivity.
Qed.

Lemma parse_document_joins_the_pages_witness :
  PdfService.parse_document (fun _ => Ok [Ok "page one"; Ok "page two"])
    (fun text => text) "%PDF-1.4"
  = Ok (mkDocument ("page one" ++ nl ++ "page two" ++ nl)).
Proof.
  apply (parse_document_joins_the_pages
           (fun _ => Ok [Ok "page one"; Ok "page two"]) (fun text => text)
           "%PDF-1.4" ["page one"; "page two"]).
  reflexivity.
Defined.

(** ** The list of ingredients in the report *)

Lemma ingredient_lines_nth :
  forall (str_of_float : Q -> string) (ingredients : list Ingredient.t)
         (first : nat),
    List.length (ingredient_lines str_of_float first ingredients)
      = List.length ingredients /\
    forall (i : nat) (ingredient : Ingredient.t),
      nth_error ingredients i = Some ingredient ->
      nth_error (ingredient_lines str_of_float first ingredients) i
      = Some ("  " ++ format_2d (first + i) ++ ". "
              ++ Ingredient.name ingredient ++ " - "
              ++ str_of_float (Ingredient.quantity ingredient)
              ++ Ingredient.unit ingredient).
Proof.
  intros str_of_float; induction ingredients as [ | x rest IH]; intros first.
  - split; [reflexivity | intros [ | i] ingredient H; discriminate H].
  - destruct (IH (S first)) as [Hlen Hnth].
    split; [cbn; rewrite Hlen; reflexivity | ].
    intros [ | i] ingredient H; cbn in H.
    + inversion H; subst x; cbn [ingredient_lines nth_error].
      rewrite Nat.add_0_r; reflexivity.
    + cbn [ingredient_lines nth_error].
      rewrite (Hnth i ingredient H), Nat.add_succ_r; reflexivity.
Qed.

(** X20: For a result with a recipe, the report printed by
    [display_results] lists the ingredients right after the line that
    announces them: exactly one line per ingredient, in the order of the
    recipe, numbered from 1 in the two-character format, each with the
    name, the quantity and the unit of its ingredient; the report has no
    other line between the announcement and the line about the cooking
    time. *)
Theorem report_lists_every_ingredient :
  forall (str_of_float : Q -> string) (dumps : json -> string)
         (r : RecipeExtractionResult.t) (recipe : RecipeEntity.t),
    RecipeExtractionResult.extracted_recipe r = Some recipe ->
    let report := display_results str_of_float dumps r in
    let count := List.length (RecipeEntity.ingredients recipe) in
    List.length report = (10 + count)%nat /\
    nth_error report 5 = Some (nl ++ "📋 材料リスト:") /\
    (forall (i : nat) (ingredient : Ingredient.t),
       nth_error (RecipeEntity.ingredients recipe) i = Some ingredient ->
       nth_error report (6 + i)
       = Some ("  " ++ format_2d (i + 1) ++ ". "
               ++ Ingredient.name ingredient ++ " - "
               ++ str_of_float (Ingredient.quantity ingredient)
               ++ Ingredient.unit ingredient)) /\
    nth_error report (6 + count)
    = nth_error
        (total_lines str_of_float
           (RecipeExtractionResult.total_cooking_minutes r)) 0.
Proof.
  intros str_of_float dumps r recipe Hrecipe report count.
  destruct (ingredient_lines_nth str_of_float
              (RecipeEntity.ingredients recipe) 1) as [Hlen Hnth].
  assert (Htotal : exists line,
             total_lines str_of_float
               (RecipeExtractionResult.total_cooking_minutes r) = [line]).
  { unfold total_lines.
    destruct (truthy_number (RecipeExtractionResult.total_cooking_minutes r));
      eexists; reflexivity. }
  destruct Htotal as [line Hline].
  subst report; unfold display_results; rewrite Hrecipe, Hline.
  cbn [recipe_lines List.app].
  split; [ | split; [reflexivity | split]].
  - cbn [List.length]; rewrite length_app, Hlen; cbn [List.length].
    subst count; lia.
  - intros i ingredient Hi.
    cbn [Nat.add nth_error].
    rewrite nth_error_app1
      by (rewrite Hlen; apply nth_error_Some; rewrite Hi; discriminate).
    rewrite (Hnth i ingredient Hi), (Nat.add_comm i 1); reflexivity.
  - cbn [Nat.add nth_error].
    rewrite nth_error_app2 by (rewrite Hlen; subst count; lia).
    rewrite Hlen; subst count; rewrite Nat.sub_diag; reflexivity.
Qed.

Lemma report_lists_every_ingredient_witness :
  RecipeExtractionResult.extracted_recipe
    (RecipeExtractionResult.mk (Some curry) None) = Some curry /\
  nth_error
    (display_results (fun _ => "2.0") (fun _ => "{}")
       (RecipeExtractionResult.mk (Some curry) None)) 6
  = Some ("   1. 玉ねぎ - 2.0個").
Proof.
  split; [reflexivity | ].
  apply (proj1 (proj2 (proj2
           (report_lists_every_ingredient (fun _ => "2.0") (fun _ => "{}")
              (RecipeExtractionResult.mk (Some curry) None) curry eq_refl)))
           0%nat (Ingredient.mk "玉ねぎ" "個" 2%Q) eq_refl).
Defined.
